(** * OmniAPI MCP server: registry, dispatcher and endpoint discovery

    A shallow embedding of [src/omniapi.js] (class [SimpleMCPServer]).

    - A JavaScript string is held as the bytes of its UTF-8 encoding (a
      surrogate on its own as its three bytes).  The characters the
      handlers look for are ASCII, so tests and concatenation work on
      the bytes; where the code counts or indexes UTF-16 units, the
      units are computed from the bytes ([Js.units]).
    - [this.apis] (a JS [Map]) is an association list in insertion order.
    - Plain JS objects (header sets, parsed JSON documents) are
      association lists in property-enumeration order.  The header
      object of an entry is built afresh by [addApi] and only read
      afterwards, so entries are values: no aliasing has to be tracked.
    - The handlers are [async] functions whose awaits are sequential, so
      a handler is a function from the server state to an outcome
      (returned value or thrown error) and a new state.  The state holds
      the registry and the trace of outbound HTTP requests.  Tool calls
      are taken one at a time; interleavings of calls in flight together
      are not modelled.
    - What lives outside the repository (the network behind [fetch],
      [JSON.parse], [JSON.stringify], [URLSearchParams] and the case
      mapping of [toUpperCase]) is a parameter: class [Host]. *)

From Stdlib Require Import String Ascii List Bool Arith NArith ZArith Lia.
From Stdlib Require Import DecimalString.
From Stdlib Require Import Floats.SpecFloat.
Import ListNotations.
Local Open Scope list_scope.
Local Open Scope string_scope.

Set Implicit Arguments.
Set Warnings "-register-all".

(* ================================================================= *)
(** ** JavaScript strings *)

Module Js.

(** The double-quote character of the message templates. *)
Definition dq : string := String (ascii_of_nat 34) EmptyString.

(** The line feed of the message templates ([\n]). *)
Definition nl : string := String (ascii_of_nat 10) EmptyString.

Definition slash : ascii := ascii_of_nat 47.

(** [s.startsWith('/')] *)
Definition startsWithSlash (s : string) : bool :=
  match s with
  | String c _ => Ascii.eqb c slash
  | EmptyString => false
  end.

(** Does the regular expression [/\/+$/] match at the very start of
    [String c r]?  It does when [c] and everything after it is a slash:
    [$] without the [m] flag only matches at the end of the input. *)
Fixpoint allSlashes (s : string) : bool :=
  match s with
  | EmptyString => true
  | String c r => Ascii.eqb c slash && allSlashes r
  end.

(** [s.replace(/\/+$/, '')]: the engine tries the start positions from
    left to right and replaces the first match by the empty string. *)
Fixpoint replaceTrailingSlashes (s : string) : string :=
  match s with
  | EmptyString => EmptyString
  | String c r =>
      if Ascii.eqb c slash && allSlashes r then EmptyString
      else String c (replaceTrailingSlashes r)
  end.

(** [l.join(sep)] *)
Definition join (sep : string) (l : list string) : string :=
  String.concat sep l.

(** [l.includes(x)] on an array of strings. *)
Definition includes (l : list string) (x : string) : bool :=
  existsb (String.eqb x) l.

(** [String(n)] for a non-negative integer. *)
Definition natToString (n : nat) : string :=
  NilZero.string_of_uint (Nat.to_uint n).

Definition NToString (n : N) : string :=
  NilZero.string_of_uint (N.to_uint n).

(** A surrogate code unit (D800-DFFF) as its three bytes. *)
Definition surrogate (u : N) : string :=
  String (ascii_of_N 237)
    (String (ascii_of_N (128 + N.land (N.shiftr u 6) 63))
       (String (ascii_of_N (128 + N.land u 63)) EmptyString)).

(** The UTF-16 code units of a string, each as a string of its own: a
    character of one, two or three bytes is one unit, a character of
    four bytes is the two surrogates of its pair.  The text is taken to
    be well-formed; a sequence cut short counts byte by byte. *)
Fixpoint units (s : string) : list string :=
  match s with
  | EmptyString => []
  | String c r =>
      let b := N_of_ascii c in
      if N.ltb b 192 then String c EmptyString :: units r
      else if N.ltb b 224 then
        match r with
        | String c1 r1 => String c (String c1 EmptyString) :: units r1
        | EmptyString => [ String c EmptyString ]
        end
      else if N.ltb b 240 then
        match r with
        | String c1 (String c2 r2) =>
            String c (String c1 (String c2 EmptyString)) :: units r2
        | _ => String c EmptyString :: units r
        end
      else
        match r with
        | String c1 (String c2 (String c3 r3)) =>
            let cp := (N.shiftl (N.land b 7) 18
                       + N.shiftl (N.land (N_of_ascii c1) 63) 12
                       + N.shiftl (N.land (N_of_ascii c2) 63) 6
                       + N.land (N_of_ascii c3) 63)%N in
            let v := (cp - 65536)%N in
            surrogate (55296 + N.shiftr v 10)
            :: surrogate (56320 + N.land v 1023)
            :: units r3
        | _ => String c EmptyString :: units r
        end
  end.

(** [s.length] *)
Definition length (s : string) : nat := List.length (units s).

(** [n] copies of the slash character. *)
Fixpoint slashes (n : nat) : string :=
  match n with
  | O => EmptyString
  | S k => String slash (slashes k)
  end.

(** [s.endsWith('/')] *)
Fixpoint endsWithSlash (s : string) : bool :=
  match s with
  | EmptyString => false
  | String c EmptyString => Ascii.eqb c slash
  | String _ r => endsWithSlash r
  end.

End Js.

(* ================================================================= *)
(** ** JavaScript values *)

(** Errors thrown by the handlers or by the host; the dispatcher only
    ever reads [error.message]. *)
Variant JsError : Type :=
| Error (message : string)
| TypeError (message : string)
| HostError (message : string).

Definition message (e : JsError) : string :=
  match e with
  | Error m | TypeError m | HostError m => m
  end.

(** The outcome of evaluating something that may throw. *)
Variant Outcome (A : Type) : Type :=
| Returned (a : A)
| Thrown (e : JsError).
Arguments Returned {A} a.
Arguments Thrown {A} e.

(** Values produced by [JSON.parse].  [undefined] is not one of them: a
    possibly undefined value has type [option JValue]. *)
Inductive JValue : Type :=
| JNull
| JBool (b : bool)
| JNumber (x : spec_float)
| JString (s : string)
| JArray (l : list JValue)
| JObject (o : list (string * JValue)).

(** A non-negative integer as a JS number. *)
Definition numberOfN (n : N) : spec_float :=
  match n with
  | N0 => S754_zero false
  | Npos p => S754_finite false p 0
  end.

(** [ToBoolean]: what [if (v)] and [v || w] test. *)
Definition truthy (v : option JValue) : bool :=
  match v with
  | None => false
  | Some JNull => false
  | Some (JBool b) => b
  | Some (JNumber x) =>
      match x with
      | S754_zero _ | S754_nan => false
      | _ => true
      end
  | Some (JString s) => negb (String.eqb s "")
  | Some (JArray _) | Some (JObject _) => true
  end.

(* ----------------------------------------------------------------- *)
(** *** Plain objects *)

Module Obj.

Definition t (V : Type) : Type := list (string * V).

(** Array indices are the canonical decimal strings of the integers
    0 .. 2^32 - 2; an object enumerates them first, in ascending order,
    and its other keys after them in creation order. *)
Definition arrayIndex (k : string) : option N :=
  match NilEmpty.uint_of_string k with
  | Some u =>
      let n := N.of_uint u in
      if (String.eqb (Js.NToString n) k && N.leb n 4294967294)%bool
      then Some n else None
  | None => None
  end.

Section Ops.
Variable V : Type.

(** [o[k]] on own properties; [None] is [undefined]. *)
Fixpoint get (k : string) (o : t V) : option V :=
  match o with
  | [] => None
  | (k', v) :: r => if String.eqb k' k then Some v else get k r
  end.

Definition has (k : string) (o : t V) : bool :=
  match get k o with Some _ => true | None => false end.

(** Overwrite the value of an existing property, in place. *)
Fixpoint update (k : string) (v : V) (o : t V) : t V :=
  match o with
  | [] => []
  | (k', v') :: r =>
      if String.eqb k' k then (k', v) :: r else (k', v') :: update k v r
  end.

(** Create the property [k], an array index of value [i], where the
    enumeration order wants it. *)
Fixpoint insertIndex (i : N) (k : string) (v : V) (o : t V) : t V :=
  match o with
  | [] => [(k, v)]
  | (k', v') :: r =>
      match arrayIndex k' with
      | Some j =>
          if N.ltb j i then (k', v') :: insertIndex i k v r
          else (k, v) :: (k', v') :: r
      | None => (k, v) :: (k', v') :: r
      end
  end.

(** [o[k] = v] *)
Definition set (k : string) (v : V) (o : t V) : t V :=
  if has k o then update k v o
  else match arrayIndex k with
       | Some i => insertIndex i k v o
       | None => (o ++ [(k, v)])%list
       end.

(** [{ ...target, ...src }]: each own property of [src], in order, is
    set on the target. *)
Definition spread (target src : t V) : t V :=
  fold_left (fun acc kv => set (fst kv) (snd kv) acc) src target.

(** [Object.fromEntries(entries)] *)
Definition fromEntries (entries : list (string * V)) : t V :=
  spread [] entries.

(** [Object.keys(o)] *)
Definition keys (o : t V) : list string := map fst o.

End Ops.
End Obj.

(** The keys ["0"], ..., ["n-1"] of an array of [n] elements or a string
    of [n] code units. *)
Definition indexKeys (n : nat) : list string :=
  map Js.natToString (seq 0 n).

(** [Object.keys(v)]: throws on [undefined] and [null]; a boolean or a
    number has no own enumerable property. *)
Definition objectKeys (v : option JValue) : Outcome (list string) :=
  match v with
  | None | Some JNull =>
      Thrown (TypeError "Cannot convert undefined or null to object")
  | Some (JBool _) | Some (JNumber _) => Returned []
  | Some (JString s) => Returned (indexKeys (Js.length s))
  | Some (JArray l) => Returned (indexKeys (List.length l))
  | Some (JObject o) => Returned (Obj.keys o)
  end.

(** [v[k]] for a key [k] that is not the name of an inherited member
    (the handlers read [paths], [swagger], [openapi] and own keys only).
    Reading a property of [undefined] or [null] throws. *)
Definition getProp (v : option JValue) (k : string) : Outcome (option JValue) :=
  match v with
  | None =>
      Thrown (TypeError ("Cannot read properties of undefined (reading '" ++ k ++ "')"))
  | Some JNull =>
      Thrown (TypeError ("Cannot read properties of null (reading '" ++ k ++ "')"))
  | Some (JBool _) | Some (JNumber _) => Returned None
  | Some (JString s) =>
      if String.eqb k "length"
      then Returned (Some (JNumber (numberOfN (N.of_nat (Js.length s)))))
      else match Obj.arrayIndex k with
           | Some i => Returned (option_map JString (nth_error (Js.units s) (N.to_nat i)))
           | None => Returned None
           end
  | Some (JArray l) =>
      if String.eqb k "length"
      then Returned (Some (JNumber (numberOfN (N.of_nat (List.length l)))))
      else match Obj.arrayIndex k with
           | Some i => Returned (nth_error l (N.to_nat i))
           | None => Returned None
           end
  | Some (JObject o) => Returned (Obj.get k o)
  end.

(* ----------------------------------------------------------------- *)
(** *** Map *)

Module JsMap.

Definition t (V : Type) : Type := list (string * V).

Section Ops.
Variable V : Type.

(** [m.get(k)] *)
Fixpoint get (k : string) (m : t V) : option V :=
  match m with
  | [] => None
  | (k', v) :: r => if String.eqb k' k then Some v else get k r
  end.

(** [m.has(k)] *)
Definition has (k : string) (m : t V) : bool :=
  match get k m with Some _ => true | None => false end.

(** [m.set(k, v)]: an existing key keeps its place, a new key goes last. *)
Fixpoint set (k : string) (v : V) (m : t V) : t V :=
  match m with
  | [] => [(k, v)]
  | (k', v') :: r =>
      if String.eqb k' k then (k', v) :: r else (k', v') :: set k v r
  end.

(** [m.size] *)
Definition size (m : t V) : nat := List.length m.

(** [Array.from(m.entries())] *)
Definition entries (m : t V) : list (string * V) := m.

Definition keys (m : t V) : list string := map fst m.

End Ops.
End JsMap.

(* ================================================================= *)
(** ** The host: node-fetch and the JS built-ins *)

(** The second argument of [fetch(url, options)] together with the URL.
    An absent [method] or [body] option is [None]. *)
Module Request.
Record t : Type := mk {
  url : string;
  method : option string;
  headers : Obj.t string;
  body : option string
}.
End Request.

(** What [fetch] resolves to.  [body] is what [response.text()] gives:
    the text read, or the error of a failed read. *)
Module Response.
Record t : Type := mk {
  status : N;
  statusText : string;
  headers : list (string * string);
  body : Outcome string
}.

(** [response.ok]: the status is in the range 200-299. *)
Definition ok (r : t) : bool := (N.leb 200 (status r) && N.ltb (status r) 300)%bool.

(** [await response.text()] *)
Definition text (r : t) : Outcome string := body r.
End Response.

(** The network rejects a call (DNS, refused connection, bad URL, ...)
    or resolves it with a response. *)
Variant FetchOutcome : Type :=
| Rejected (e : JsError)
| Resolved (r : Response.t).

(** Everything the handlers call and the repository does not define.
    The network may answer differently over time: its answer depends on
    the calls made so far. *)
Class Host : Type := {
  network : list Request.t -> Request.t -> FetchOutcome;
  JSON_parse : string -> Outcome JValue;
  JSON_stringify : JValue -> string;
  JSON_stringify_indent2 : JValue -> string;
  URLSearchParams_toString : Obj.t string -> string;
  toUpperCase : string -> string
}.

(* ================================================================= *)
(** ** The server *)

(** A registry entry. *)
Module ApiConfig.
Record t : Type := mk {
  baseUrl : string;
  headers : Obj.t string
}.
End ApiConfig.

(** [request.params.arguments]: the properties the four input schemas
    declare.  A handler destructures its own and ignores the others.
    The properties a schema lists as required are strings; an optional
    property that is absent is [None]. *)
Module Args.
Record t : Type := mk {
  name : string;
  baseUrl : string;
  headers : option (Obj.t string);
  api : string;
  endpoint : string;
  method : option string;
  body : option JValue;
  params : option (Obj.t string)
}.
End Args.

Record ContentBlock : Type := { type : string; text : string }.

(** The payload a tool call answers with; [isError] is [None] when the
    property is absent. *)
Record ToolResult : Type := {
  content : list ContentBlock;
  isError : option bool
}.

Definition textResult (s : string) : ToolResult :=
  {| content := [ {| type := "text"; text := s |} ]; isError := None |}.

(** The state a handler runs in: [this.apis] and, as a ghost, the calls
    made to [fetch] so far, oldest first. *)
Record Server : Type := {
  apis : JsMap.t ApiConfig.t;
  trace : list Request.t
}.

(** [new SimpleMCPServer()] *)
Definition newServer : Server := {| apis := []; trace := [] |}.

(** An [async] method body. *)
Definition M (A : Type) : Type := Server -> Outcome A * Server.

Definition ret {A} (a : A) : M A := fun st => (Returned a, st).

Definition bind {A B} (c : M A) (k : A -> M B) : M B :=
  fun st =>
    match c st with
    | (Returned a, st') => k a st'
    | (Thrown e, st') => (Thrown e, st')
    end.

Definition throw {A} (e : JsError) : M A := fun st => (Thrown e, st).

(** [try { c } catch (error) { h error }] *)
Definition tryCatch {A} (c : M A) (h : JsError -> M A) : M A :=
  fun st =>
    match c st with
    | (Returned a, st') => (Returned a, st')
    | (Thrown e, st') => h e st'
    end.

Definition liftOutcome {A} (o : Outcome A) : M A := fun st => (o, st).

Definition getApis : M (JsMap.t ApiConfig.t) := fun st => (Returned (apis st), st).

Definition setApis (m : JsMap.t ApiConfig.t) : M unit :=
  fun st => (Returned tt, {| apis := m; trace := trace st |}).

Declare Scope js_scope.
Delimit Scope js_scope with js.
Notation "x <- c ;; k" := (bind c (fun x => k))
  (at level 61, c at next level, right associativity) : js_scope.
Notation "c ;;; k" := (bind c (fun _ => k))
  (at level 61, right associativity) : js_scope.
Local Open Scope js_scope.

Section Handlers.
Context {host : Host}.

(** [await fetch(url, options)] *)
Definition fetch (req : Request.t) : M Response.t :=
  fun st =>
    let st' := {| apis := apis st; trace := (trace st ++ [req])%list |} in
    match network (trace st) req with
    | Rejected e => (Thrown e, st')
    | Resolved r => (Returned r, st')
    end.

(** [await response.json()] *)
Definition json (r : Response.t) : Outcome JValue :=
  match Response.text r with
  | Returned t => JSON_parse t
  | Thrown e => Thrown e
  end.

(* ----------------------------------------------------------------- *)
(** *** add_api *)

Definition defaultHeaders : Obj.t string :=
  Obj.set "Content-Type" "application/json" [].

Definition addedText (name cleanUrl : string) : string :=
  "✅ API " ++ Js.dq ++ name ++ Js.dq ++ " added successfully!" ++ Js.nl
  ++ "URL: " ++ cleanUrl ++ Js.nl ++ Js.nl
  ++ "You can now use:" ++ Js.nl
  ++ "- call_api to make calls" ++ Js.nl
  ++ "- discover_api to discover endpoints".

Definition addApi (args : Args.t) : M ToolResult :=
  let name := Args.name args in
  let baseUrl := Args.baseUrl args in
  let headers := match Args.headers args with Some h => h | None => [] end in
  let cleanUrl := Js.replaceTrailingSlashes baseUrl in
  m <- getApis ;;
  setApis (JsMap.set name
             {| ApiConfig.baseUrl := cleanUrl;
                ApiConfig.headers := Obj.spread defaultHeaders headers |} m) ;;;
  ret (textResult (addedText name cleanUrl)).

(* ----------------------------------------------------------------- *)
(** *** list_apis *)

Definition noApisText : string :=
  "📝 No APIs configured yet." ++ Js.nl ++ Js.nl ++ "Use add_api to add an API.".

Definition listApis : M ToolResult :=
  m <- getApis ;;
  if Nat.eqb (JsMap.size m) 0 then ret (textResult noApisText)
  else
    let apiList :=
      Js.join Js.nl
        (map (fun entry => "• " ++ fst entry ++ ": " ++ ApiConfig.baseUrl (snd entry))
             (JsMap.entries m)) in
    ret (textResult ("📋 Configured APIs:" ++ Js.nl ++ Js.nl ++ apiList)).

(* ----------------------------------------------------------------- *)
(** *** call_api *)

Definition notFoundCall (api : string) : JsError :=
  Error ("API " ++ Js.dq ++ api ++ Js.dq
         ++ " not found. Use list_apis to see available APIs.").

Definition undefinedConfig : JsError :=
  TypeError "Cannot read properties of undefined (reading 'baseUrl')".

(** The URL of the outbound call. *)
Definition buildUrl (apiConfig : ApiConfig.t) (endpoint : string)
    (params : option (Obj.t string)) : string :=
  let url := ApiConfig.baseUrl apiConfig
             ++ (if Js.startsWithSlash endpoint then endpoint else "/" ++ endpoint) in
  match params with
  | Some p => url ++ "?" ++ URLSearchParams_toString p
  | None => url
  end.

Definition fetchOptions (url method : string) (apiConfig : ApiConfig.t)
    (body : option JValue) : Request.t :=
  {| Request.url := url;
     Request.method := Some method;
     Request.headers := ApiConfig.headers apiConfig;
     Request.body :=
       if (truthy body && Js.includes ["POST"; "PUT"; "PATCH"] method)%bool
       then option_map JSON_stringify body
       else None |}.

(** [try { responseData = JSON.parse(responseText) }
     catch { responseData = responseText }] *)
Definition parseOrText (responseText : string) : JValue :=
  match JSON_parse responseText with
  | Returned v => v
  | Thrown _ => JString responseText
  end.

(** The [result] object of [callApi]. *)
Definition callResult (response : Response.t) (responseData : JValue) : JValue :=
  JObject
    [ ("status", JNumber (numberOfN (Response.status response)));
      ("statusText", JString (Response.statusText response));
      ("headers",
        JObject (map (fun kv => (fst kv, JString (snd kv)))
                     (Obj.fromEntries (Response.headers response))));
      ("data", responseData) ].

Definition responseMessage (api : string) (result : JValue) : string :=
  "🌐 Response from API " ++ Js.dq ++ api ++ Js.dq ++ ":" ++ Js.nl ++ Js.nl
  ++ JSON_stringify_indent2 result.

Definition callApi (args : Args.t) : M ToolResult :=
  let api := Args.api args in
  let endpoint := Args.endpoint args in
  let method := match Args.method args with Some m => m | None => "GET" end in
  m <- getApis ;;
  if negb (JsMap.has api m) then throw (notFoundCall api)
  else
    match JsMap.get api m with
    | None => throw undefinedConfig
    | Some apiConfig =>
        let url := buildUrl apiConfig endpoint (Args.params args) in
        response <- fetch (fetchOptions url method apiConfig (Args.body args)) ;;
        responseText <- liftOutcome (Response.text response) ;;
        let responseData := parseOrText responseText in
        ret (textResult (responseMessage api (callResult response responseData)))
    end.

(* ----------------------------------------------------------------- *)
(** *** discover_api *)

Definition notFoundDiscover (api : string) : JsError :=
  Error ("API " ++ Js.dq ++ api ++ Js.dq ++ " not found.").

Definition commonPaths : list string :=
  [ "/swagger.json";
    "/openapi.json";
    "/api-docs";
    "/docs";
    "/swagger/v1/swagger.json";
    "/v1/swagger.json";
    "/.well-known/openapi.json" ].

Definition commonEndpoints : list string :=
  [ "/"; "/api"; "/health"; "/status"; "/users"; "/posts" ].

Definition discoverHeader (api : string) : string :=
  "🔍 Trying to discover endpoints for API " ++ Js.dq ++ api ++ Js.dq ++ "..."
  ++ Js.nl ++ Js.nl.

Definition foundLine (path : string) : string :=
  "✅ Documentation found at: " ++ path ++ Js.nl ++ Js.nl.

Definition endpointsHeader : string := "📋 Available endpoints:" ++ Js.nl.

Definition endpointLine (endpoint methods : string) : string :=
  "• " ++ endpoint ++ " [" ++ methods ++ "]" ++ Js.nl.

Definition notFoundLines : string :=
  "❌ OpenAPI documentation not found." ++ Js.nl ++ Js.nl
  ++ "🔍 Testing common endpoints..." ++ Js.nl ++ Js.nl.

Definition okLine (endpoint : string) (status : N) : string :=
  "✅ " ++ endpoint ++ " (" ++ Js.NToString status ++ ")" ++ Js.nl.

Definition tipLine : string :=
  Js.nl ++ "💡 Tip: Check the API documentation for specific endpoints.".

(** The request of the first loop: [fetch(url, { headers })]. *)
Definition docRequest (apiConfig : ApiConfig.t) (path : string) : Request.t :=
  {| Request.url := ApiConfig.baseUrl apiConfig ++ path;
     Request.method := None;
     Request.headers := ApiConfig.headers apiConfig;
     Request.body := None |}.

(** The request of the second loop:
    [fetch(url, { method: 'HEAD', headers })]. *)
Definition headRequest (apiConfig : ApiConfig.t) (endpoint : string) : Request.t :=
  {| Request.url := ApiConfig.baseUrl apiConfig ++ endpoint;
     Request.method := Some "HEAD";
     Request.headers := ApiConfig.headers apiConfig;
     Request.body := None |}.

(** [doc.paths || doc.swagger || doc.openapi], as a condition. *)
Definition docFound (doc : JValue) : Outcome bool :=
  match getProp (Some doc) "paths" with
  | Thrown e => Thrown e
  | Returned p =>
      if truthy p then Returned true
      else match getProp (Some doc) "swagger" with
           | Thrown e => Thrown e
           | Returned s =>
               if truthy s then Returned true
               else match getProp (Some doc) "openapi" with
                    | Thrown e => Thrown e
                    | Returned o => Returned (truthy o)
                    end
           end
  end.

(** The callback of [forEach], applied to the keys [endpoints] in turn.
    It appends to [discovered]; when it throws, what was appended so far
    stays. *)
Fixpoint forEachEndpoint (paths : option JValue) (endpoints : list string)
    (discovered : string) : string * Outcome unit :=
  match endpoints with
  | [] => (discovered, Returned tt)
  | endpoint :: rest =>
      match getProp paths endpoint with
      | Thrown e => (discovered, Thrown e)
      | Returned item =>
          match objectKeys item with
          | Thrown e => (discovered, Thrown e)
          | Returned ks =>
              let methods := toUpperCase (Js.join ", " ks) in
              forEachEndpoint paths rest (discovered ++ endpointLine endpoint methods)
          end
      end
  end.

(** [Object.keys(doc.paths).forEach(endpoint => ...)] *)
Definition listEndpoints (paths : option JValue) (discovered : string)
    : string * Outcome unit :=
  match objectKeys paths with
  | Thrown e => (discovered, Thrown e)
  | Returned ks => forEachEndpoint paths ks discovered
  end.

(** The [try] block of the first loop after [fetch] has resolved: the
    new value of [discovered] and how the block ends, by [return]
    ([Some]), by reaching its end ([None]) or by throwing. *)
Definition inspectDoc (path : string) (response : Response.t)
    (discovered : string) : string * Outcome (option ToolResult) :=
  if Response.ok response then
    match json response with
    | Thrown e => (discovered, Thrown e)
    | Returned doc =>
        match docFound doc with
        | Thrown e => (discovered, Thrown e)
        | Returned false => (discovered, Returned None)
        | Returned true =>
            let discovered := discovered ++ foundLine path in
            match getProp (Some doc) "paths" with
            | Thrown e => (discovered, Thrown e)
            | Returned paths =>
                let (discovered, listed) :=
                  if truthy paths
                  then listEndpoints paths (discovered ++ endpointsHeader)
                  else (discovered, Returned tt) in
                match listed with
                | Returned _ => (discovered, Returned (Some (textResult discovered)))
                | Thrown e => (discovered, Thrown e)
                end
            end
        end
    end
  else (discovered, Returned None).

(** How a loop over candidates ends: with [discovered] after the last
    candidate, or by the [return] inside it. *)
Variant Flow : Type :=
| Next (discovered : string)
| Return (result : ToolResult).

(** [for (const path of commonPaths) { try { ... } catch (error) { } }] *)
Fixpoint docLoop (apiConfig : ApiConfig.t) (paths : list string)
    (discovered : string) : M Flow :=
  match paths with
  | [] => ret (Next discovered)
  | path :: rest =>
      fun st =>
        match fetch (docRequest apiConfig path) st with
        | (Thrown _, st1) => docLoop apiConfig rest discovered st1
        | (Returned response, st1) =>
            match inspectDoc path response discovered with
            | (_, Returned (Some result)) => (Returned (Return result), st1)
            | (discovered1, _) => docLoop apiConfig rest discovered1 st1
            end
        end
  end.

(** [for (const endpoint of commonEndpoints) { try { ... } catch (error) { } }] *)
Fixpoint endpointLoop (apiConfig : ApiConfig.t) (endpoints : list string)
    (discovered : string) : M string :=
  match endpoints with
  | [] => ret discovered
  | endpoint :: rest =>
      fun st =>
        match fetch (headRequest apiConfig endpoint) st with
        | (Thrown _, st1) => endpointLoop apiConfig rest discovered st1
        | (Returned response, st1) =>
            endpointLoop apiConfig rest
              (if Response.ok response
               then discovered ++ okLine endpoint (Response.status response)
               else discovered)
              st1
        end
  end.

Definition discoverApi (args : Args.t) : M ToolResult :=
  let api := Args.api args in
  m <- getApis ;;
  if negb (JsMap.has api m) then throw (notFoundDiscover api)
  else
    match JsMap.get api m with
    | None => throw undefinedConfig
    | Some apiConfig =>
        flow <- docLoop apiConfig commonPaths (discoverHeader api) ;;
        match flow with
        | Return result => ret result
        | Next discovered =>
            discovered <- endpointLoop apiConfig commonEndpoints
                            (discovered ++ notFoundLines) ;;
            ret (textResult (discovered ++ tipLine))
        end
    end.

(* ----------------------------------------------------------------- *)
(** *** The tool-call request handler *)

Definition errorResult (error : JsError) : ToolResult :=
  {| content := [ {| type := "text"; text := "Error: " ++ message error |} ];
     isError := Some true |}.

(** The [switch] inside the [try] block of the request handler. *)
Definition dispatch (name : string) (args : Args.t) : M ToolResult :=
  if String.eqb name "add_api" then addApi args
  else if String.eqb name "list_apis" then listApis
  else if String.eqb name "call_api" then callApi args
  else if String.eqb name "discover_api" then discoverApi args
  else throw (Error ("Unknown tool: " ++ name)).

(** The handler registered for [CallToolRequestSchema], applied to
    [request.params.name] and [request.params.arguments]. *)
Definition callTool (name : string) (args : Args.t) : M ToolResult :=
  tryCatch (dispatch name args) (fun error => ret (errorResult error)).

(** The server after a sequence of tool calls, each given by its tool
    name and arguments. *)
Fixpoint runCalls (calls : list (string * Args.t)) (st : Server) : Server :=
  match calls with
  | [] => st
  | (name, args) :: rest => runCalls rest (snd (callTool name args st))
  end.

(* ----------------------------------------------------------------- *)
(** *** Vocabulary of the statements *)

(** The server once the calls [reqs] to [fetch] have been made. *)
Definition after (st : Server) (reqs : list Request.t) : Server :=
  {| apis := apis st; trace := (trace st ++ reqs)%list |}.

(** What the handlers return is one block of text. *)
Definition oneText (r : ToolResult) : Prop :=
  exists t, r = textResult t.

(** The call [callApi] makes for the entry [apiConfig]. *)
Definition callRequest (apiConfig : ApiConfig.t) (args : Args.t) : Request.t :=
  fetchOptions
    (buildUrl apiConfig (Args.endpoint args) (Args.params args))
    (match Args.method args with Some m => m | None => "GET" end)
    apiConfig (Args.body args).

(** The query part that [callApi] appends to the URL. *)
Definition query (params : option (Obj.t string)) : string :=
  match params with
  | Some p => "?" ++ URLSearchParams_toString p
  | None => ""
  end.

(** The entry [addApi] builds from its arguments. *)
Definition entryOf (args : Args.t) : ApiConfig.t :=
  {| ApiConfig.baseUrl := Js.replaceTrailingSlashes (Args.baseUrl args);
     ApiConfig.headers :=
       Obj.spread defaultHeaders
         (match Args.headers args with Some h => h | None => [] end) |}.

(** A probe of discovery, as a call of [fetch]: the base URL of the
    entry followed by the path, the headers of the entry, the method
    given (none for the documentation paths) and no body. *)
Definition probeOf (method : option string) (cfg : ApiConfig.t) (path : string)
    : Request.t :=
  {| Request.url := ApiConfig.baseUrl cfg ++ path;
     Request.method := method;
     Request.headers := ApiConfig.headers cfg;
     Request.body := None |}.

(** One of the properties [paths], [swagger], [openapi] of a parsed
    body is truthy. *)
Definition namesDoc (doc : JValue) : bool :=
  existsb
    (fun key => match getProp (Some doc) key with
                | Returned v => truthy v
                | Thrown _ => false
                end)
    [ "paths"; "swagger"; "openapi" ].

(** A probe of the first loop yields documentation: the call resolved
    with a successful status and a body that is read and parsed to a
    value one of whose properties [paths], [swagger], [openapi] is
    truthy. *)
Definition yieldsDoc (answer : FetchOutcome) : bool :=
  match answer with
  | Rejected _ => false
  | Resolved r =>
      (Response.ok r &&
       match Response.text r with
       | Returned t =>
           match JSON_parse t with
           | Returned doc => namesDoc doc
           | Thrown _ => false
           end
       | Thrown _ => false
       end)%bool
  end.

(** The answer of the network to the [k]-th request of [reqs] when the
    requests before it have been made, in order, after [before]. *)
Definition answerAt (before reqs : list Request.t) (k : nat) : option FetchOutcome :=
  match nth_error reqs k with
  | Some req => Some (network (before ++ firstn k reqs)%list req)
  | None => None
  end.

(** None of the requests [reqs], made in order after [before], yields
    documentation. *)
Definition allMiss (before reqs : list Request.t) : bool :=
  forallb
    (fun k => match answerAt before reqs k with
              | Some a => negb (yieldsDoc a)
              | None => true
              end)
    (seq 0 (List.length reqs)).

(** The keys of [paths], none for a value that has none. *)
Definition keysOf (paths : option JValue) : list string :=
  match objectKeys paths with
  | Returned ks => ks
  | Thrown _ => []
  end.

(** The methods listed for the key [k] of [paths]: the keys of its value. *)
Definition methodsAt (paths : option JValue) (k : string) : Outcome (list string) :=
  match getProp paths k with
  | Returned item => objectKeys item
  | Thrown e => Thrown e
  end.

Definition methodsOrNone (paths : option JValue) (k : string) : list string :=
  match methodsAt paths k with
  | Returned ms => ms
  | Thrown _ => []
  end.

(** One line per key: a bullet, the key and, in brackets, the methods
    joined by a comma and a space and put in upper case. *)
Definition documentedLines (paths : option JValue) (ks : list string) : string :=
  String.concat ""
    (map (fun k => "• " ++ k ++ " ["
                   ++ toUpperCase (Js.join ", " (methodsOrNone paths k)) ++ "]" ++ Js.nl)
         ks).

(** Every key of [paths] has a value whose keys can be taken: none is
    [null]. *)
Definition listable (paths : option JValue) : bool :=
  forallb
    (fun k => match methodsAt paths k with
              | Returned _ => true
              | Thrown _ => false
              end)
    (keysOf paths).

(** What the second loop reports for a probe. *)
Definition reportOf (endpoint : string) (answer : option FetchOutcome) : string :=
  match answer with
  | Some (Resolved r) =>
      if Response.ok r
      then "✅ " ++ endpoint ++ " (" ++ Js.NToString (Response.status r) ++ ")" ++ Js.nl
      else ""
  | _ => ""
  end.

End Handlers.

Definition withEndpoint (args : Args.t) (e : string) : Args.t :=
  {| Args.name := Args.name args;
     Args.baseUrl := Args.baseUrl args;
     Args.headers := Args.headers args;
     Args.api := Args.api args;
     Args.endpoint := e;
     Args.method := Args.method args;
     Args.body := Args.body args;
     Args.params := Args.params args |}.

Definition addArgs (name baseUrl : string) (headers : option (Obj.t string)) : Args.t :=
  {| Args.name := name; Args.baseUrl := baseUrl; Args.headers := headers;
     Args.api := ""; Args.endpoint := ""; Args.method := None;
     Args.body := None; Args.params := None |}.

Definition callArgs (api endpoint : string) : Args.t :=
  {| Args.name := ""; Args.baseUrl := ""; Args.headers := None;
     Args.api := api; Args.endpoint := endpoint; Args.method := None;
     Args.body := None; Args.params := None |}.

(* ================================================================= *)
(** ** The tool catalogue *)

(** One entry of [properties] in an input schema; a key the source does
    not write is [None].  [additionalProperties] holds the [type] of
    the additional properties. *)
Module Property.
Record t : Type := mk {
  type : string;
  description : string;
  enum : option (list string);
  default : option string;
  additionalProperties : option string
}.
End Property.

Module InputSchema.
Record t : Type := mk {
  type : string;
  properties : Obj.t Property.t;
  required : option (list string)
}.
End InputSchema.

Module Tool.
Record t : Type := mk {
  name : string;
  description : string;
  inputSchema : InputSchema.t
}.
End Tool.

Definition plain (type description : string) : Property.t :=
  Property.mk type description None None None.

(** The [tools] array the handler of [ListToolsRequestSchema] returns. *)
Definition tools : list Tool.t :=
  [ Tool.mk "add_api"
      "Adds a new API for use. Just provide the API base URL or simply its name."
      (InputSchema.mk "object"
         [ ("name", plain "string" "Name to identify this API");
           ("baseUrl", plain "string" "API base URL (e.g., https://api.example.com)");
           ("headers",
             Property.mk "object" "Optional headers (e.g., Authorization)"
               None None (Some "string")) ]
         (Some [ "name"; "baseUrl" ]));
    Tool.mk "list_apis"
      "Lists all configured APIs"
      (InputSchema.mk "object" [] None);
    Tool.mk "call_api"
      "Makes a request to any configured API"
      (InputSchema.mk "object"
         [ ("api", plain "string" "Name of the configured API");
           ("endpoint", plain "string" "API endpoint (e.g., /users, /posts/1)");
           ("method",
             Property.mk "string" "HTTP method"
               (Some [ "GET"; "POST"; "PUT"; "DELETE"; "PATCH" ]) (Some "GET") None);
           ("body", plain "object" "Data to send in the body (for POST/PUT/PATCH)");
           ("params",
             Property.mk "object" "Query parameters" None None (Some "string")) ]
         (Some [ "api"; "endpoint" ]));
    Tool.mk "discover_api"
      "Attempts to discover available endpoints in an API (works with APIs that have OpenAPI documentation)"
      (InputSchema.mk "object"
         [ ("api", plain "string" "Name of the configured API") ]
         (Some [ "api" ])) ].

(* ----------------------------------------------------------------- *)
(** *** More vocabulary *)

(** The line of [listApis] for one entry. *)
Definition apiLine (entry : string * ApiConfig.t) : string :=
  "• " ++ fst entry ++ ": " ++ ApiConfig.baseUrl (snd entry).

(** An entry as [addApi] leaves it: no slash at the end of the base
    URL, and a [Content-Type] header. *)
Definition entryOk (cfg : ApiConfig.t) : Prop :=
  Js.endsWithSlash (ApiConfig.baseUrl cfg) = false /\
  Obj.has "Content-Type" (ApiConfig.headers cfg) = true.

(** A request as the handlers make it: with a [Content-Type] header,
    and with a body only under one of the methods POST, PUT, PATCH. *)
Definition requestOk (req : Request.t) : Prop :=
  Obj.has "Content-Type" (Request.headers req) = true /\
  (Request.body req = None \/
   exists m, Request.method req = Some m /\ In m [ "POST"; "PUT"; "PATCH" ]).

(** The thirteen probes of [discoverApi], in the order it makes them. *)
Definition probes (cfg : ApiConfig.t) : list Request.t :=
  (map (docRequest cfg) commonPaths ++ map (headRequest cfg) commonEndpoints)%list.

(* ================================================================= *)
(** ** A host for the examples

    A network that answers from a fixed table, whatever was asked
    before, and built-ins that are right on the values of the table:
    [JSON.parse] knows the documents the table serves and rejects any
    other text; the serializers print integers and strings without
    control characters; the query encoder expects keys and values
    without reserved characters; the case mapping expects text whose
    letters are ASCII. *)

Module Sample.

Definition q (s : string) : string := Js.dq ++ s ++ Js.dq.

(** [{"openapi":"3.0","paths":{"/a":{"get":{}}}}] *)
Definition openapiText : string :=
  "{" ++ q "openapi" ++ ":" ++ q "3.0" ++ "," ++ q "paths" ++ ":{"
  ++ q "/a" ++ ":{" ++ q "get" ++ ":{}}}}".

Definition openapiDoc : JValue :=
  JObject [ ("openapi", JString "3.0");
            ("paths", JObject [ ("/a", JObject [ ("get", JObject []) ]) ]) ].

(** The object whose only key, [swagger], holds the empty string. *)
Definition blankSwaggerText : string := "{" ++ q "swagger" ++ ":" ++ q "" ++ "}".

Definition blankSwaggerDoc : JValue := JObject [ ("swagger", JString "") ].

(** [{"paths":{"/a":{"get":{}},"/b":null,"/c":{"put":{}}}}] *)
Definition nullEntryText : string :=
  "{" ++ q "paths" ++ ":{" ++ q "/a" ++ ":{" ++ q "get" ++ ":{}},"
  ++ q "/b" ++ ":null," ++ q "/c" ++ ":{" ++ q "put" ++ ":{}}}}".

Definition nullEntryDoc : JValue :=
  JObject [ ("paths", JObject [ ("/a", JObject [ ("get", JObject []) ]);
                                ("/b", JNull);
                                ("/c", JObject [ ("put", JObject []) ]) ]) ].

Definition parse (text : string) : Outcome JValue :=
  if String.eqb text openapiText then Returned openapiDoc
  else if String.eqb text blankSwaggerText then Returned blankSwaggerDoc
  else if String.eqb text nullEntryText then Returned nullEntryDoc
  else Thrown (HostError "Unexpected token in JSON").

Definition response (status : N) (statusText body : string) : Response.t :=
  {| Response.status := status;
     Response.statusText := statusText;
     Response.headers := [ ("content-type", "text/plain") ];
     Response.body := Returned body |}.

Definition respond (status : N) (statusText body : string) : FetchOutcome :=
  Resolved (response status statusText body).

Definition table : list (string * FetchOutcome) :=
  [ ("https://h.test/openapi.json", respond 200 "OK" openapiText);
    ("https://h.test/users", respond 200 "OK" "not json");
    ("https://k.test/swagger.json", respond 200 "OK" blankSwaggerText);
    ("https://k.test/", respond 200 "OK" "");
    ("https://k.test/health", respond 204 "No Content" "");
    ("https://k.test/status", respond 500 "Internal Server Error" "");
    ("https://k.test/users", Rejected (HostError "socket hang up"));
    ("https://n.test/swagger.json", respond 200 "OK" nullEntryText) ].

(** Any URL outside the table answers 404. *)
Definition answer (req : Request.t) : FetchOutcome :=
  match Obj.get (Request.url req) table with
  | Some a => a
  | None => respond 404 "Not Found" "Not Found"
  end.

Definition quote (s : string) : string := q s.

Definition number (x : spec_float) : string :=
  match x with
  | S754_zero _ => "0"
  | S754_finite false m Z0 => Js.NToString (Npos m)
  | S754_finite true m Z0 => "-" ++ Js.NToString (Npos m)
  | _ => "null"
  end.

(** [JSON.stringify(v, null, gap)] at the indentation [indent]; the
    empty [gap] gives the compact form. *)
Fixpoint stringify (gap indent : string) (v : JValue) : string :=
  let inner := indent ++ gap in
  let opening := if String.eqb gap "" then "" else Js.nl ++ inner in
  let closing := if String.eqb gap "" then "" else Js.nl ++ indent in
  let colon := if String.eqb gap "" then ":" else ": " in
  match v with
  | JNull => "null"
  | JBool true => "true"
  | JBool false => "false"
  | JNumber x => number x
  | JString s => quote s
  | JArray [] => "[]"
  | JArray l =>
      "[" ++ opening
      ++ Js.join ("," ++ opening) (map (stringify gap inner) l)
      ++ closing ++ "]"
  | JObject [] => "{}"
  | JObject o =>
      "{" ++ opening
      ++ Js.join ("," ++ opening)
           (map (fun kv : string * JValue => let (k, w) := kv in quote k ++ colon ++ stringify gap inner w) o)
      ++ closing ++ "}"
  end.

(** Upper case for text whose letters are all ASCII. *)
Definition upperChar (c : ascii) : ascii :=
  let n := nat_of_ascii c in
  if (Nat.leb 97 n && Nat.leb n 122)%bool then ascii_of_nat (n - 32) else c.

Fixpoint upper (s : string) : string :=
  match s with
  | EmptyString => EmptyString
  | String c r => String (upperChar c) (upper r)
  end.

Definition encode (p : Obj.t string) : string :=
  Js.join "&" (map (fun kv => fst kv ++ "=" ++ snd kv) p).

Definition host : Host :=
  {| network := fun _ req => answer req;
     JSON_parse := parse;
     JSON_stringify := stringify "" "";
     JSON_stringify_indent2 := stringify "  " "";
     URLSearchParams_toString := encode;
     toUpperCase := upper |}.

(** The entries of the three APIs of the examples. *)
Definition x : ApiConfig.t :=
  {| ApiConfig.baseUrl := "https://h.test";
     ApiConfig.headers := [ ("Content-Type", "application/json") ] |}.

Definition k : ApiConfig.t :=
  {| ApiConfig.baseUrl := "https://k.test";
     ApiConfig.headers := [ ("Content-Type", "application/json");
                            ("Authorization", "Bearer t") ] |}.

Definition n : ApiConfig.t :=
  {| ApiConfig.baseUrl := "https://n.test";
     ApiConfig.headers := [ ("Content-Type", "application/json") ] |}.

(** The server after [add_api] of [x], [k] and [n]. *)
Definition server : Server :=
  @runCalls host
    [ ("add_api", addArgs "x" "https://h.test///" None);
      ("add_api", addArgs "k" "https://k.test" (Some [ ("Authorization", "Bearer t") ]));
      ("add_api", addArgs "n" "https://n.test/" None) ]
    newServer.

End Sample.

(* ================================================================= *)
(** ** The definitions at work *)

Example replaceTrailingSlashes_examples :
  Js.replaceTrailingSlashes "https://h.test///" = "https://h.test" /\
  Js.replaceTrailingSlashes "a//b/" = "a//b" /\
  Js.replaceTrailingSlashes "///" = "" /\
  Js.replaceTrailingSlashes ("a/" ++ Js.nl) = "a/" ++ Js.nl.
Proof. repeat split; reflexivity. Qed.

Example arrayIndex_examples :
  Obj.arrayIndex "10" = Some 10%N /\ Obj.arrayIndex "0" = Some 0%N /\
  Obj.arrayIndex "01" = None /\ Obj.arrayIndex "" = None /\
  Obj.arrayIndex "4294967295" = None /\ Obj.arrayIndex "a" = None.
Proof. repeat split; reflexivity. Qed.

(** A header that differs in case from [Content-Type] is another key;
    array indices come first in the result. *)
Example spread_examples :
  Obj.spread [ ("Content-Type", "application/json") ]
             [ ("content-type", "text/xml"); ("1", "y"); ("Content-Type", "z"); ("0", "w") ]
  = [ ("0", "w"); ("1", "y"); ("Content-Type", "z"); ("content-type", "text/xml") ].
Proof. reflexivity. Qed.

Example truthy_examples :
  truthy (Some (JString "")) = false /\ truthy (Some JNull) = false /\
  truthy (Some (JNumber (S754_zero true))) = false /\ truthy None = false /\
  truthy (Some (JObject [])) = true /\ truthy (Some (JString "0")) = true.
Proof. repeat split; reflexivity. Qed.

Example units_examples :
  Js.length "abc" = 3 /\ Js.length "é" = 1 /\ Js.length "✅" = 1 /\
  Js.length "🔍" = 2 /\ Js.units "aé✅" = [ "a"; "é"; "✅" ] /\
  Js.length "a🔍/" = 4.
Proof. repeat split; reflexivity. Qed.

Example objectKeys_examples :
  objectKeys (Some (JString "ab")) = Returned [ "0"; "1" ] /\
  objectKeys (Some (JString "é")) = Returned [ "0" ] /\
  getProp (Some (JString "é/")) "1" = Returned (Some (JString "/")) /\
  getProp (Some (JString "é/")) "length" = Returned (Some (JNumber (numberOfN 2))) /\
  objectKeys (Some (JObject [ ("get", JObject []); ("post", JObject []) ]))
  = Returned [ "get"; "post" ] /\
  objectKeys (Some (JBool true)) = Returned [] /\
  (exists e, objectKeys (Some JNull) = Thrown e).
Proof. repeat split; try reflexivity. eexists. reflexivity. Qed.

Example listApis_examples :
  listApis newServer = (Returned (textResult noApisText), newServer) /\
  listApis Sample.server =
  (Returned
     (textResult ("📋 Configured APIs:" ++ Js.nl ++ Js.nl
                  ++ "• x: https://h.test" ++ Js.nl
                  ++ "• k: https://k.test" ++ Js.nl
                  ++ "• n: https://n.test")),
   Sample.server).
Proof. split; reflexivity. Qed.

Example upper_examples :
  Sample.upper "abcdefghijklmnopqrstuvwxyz" = "ABCDEFGHIJKLMNOPQRSTUVWXYZ" /\
  Sample.upper "get, post" = "GET, POST" /\
  Sample.upper "GET /a-1_{}[]`~@" = "GET /A-1_{}[]`~@".
Proof. repeat split; reflexivity. Qed.

Example stringify_example :
  Sample.stringify "  " ""
    (JObject [ ("status", JNumber (numberOfN 200));
               ("headers", JObject []);
               ("data", JArray [ JString "a"; JNull ]) ])
  = "{" ++ Js.nl
    ++ "  " ++ Sample.q "status" ++ ": 200," ++ Js.nl
    ++ "  " ++ Sample.q "headers" ++ ": {}," ++ Js.nl
    ++ "  " ++ Sample.q "data" ++ ": [" ++ Js.nl
    ++ "    " ++ Sample.q "a" ++ "," ++ Js.nl
    ++ "    null" ++ Js.nl
    ++ "  ]" ++ Js.nl
    ++ "}".
Proof. reflexivity. Qed.

(* ================================================================= *)
(** ** Strings *)

Lemma append_assoc (a b c : string) : (a ++ b) ++ c = a ++ (b ++ c).
Proof. induction a as [|x a IH]; simpl; [reflexivity | now rewrite IH]. Qed.

Lemma append_empty_r (a : string) : a ++ "" = a.
Proof. induction a as [|x a IH]; simpl; [reflexivity | now rewrite IH]. Qed.

Lemma allSlashes_slashes (s : string) :
  Js.allSlashes s = true -> s = Js.slashes (String.length s).
Proof.
  induction s as [|c r IH]; simpl; intros H; [reflexivity|].
  apply andb_prop in H as [Hc Hr].
  apply Ascii.eqb_eq in Hc. subst c. now rewrite <- IH.
Qed.

Lemma allSlashes_of_slashes (n : nat) : Js.allSlashes (Js.slashes n) = true.
Proof. induction n; simpl; auto. Qed.

(** The replacement removes a run of slashes at the end, and nothing
    else; what is left does not end in a slash. *)
Lemma replaceTrailingSlashes_spec (s : string) :
  (exists n, s = Js.replaceTrailingSlashes s ++ Js.slashes n) /\
  Js.endsWithSlash (Js.replaceTrailingSlashes s) = false.
Proof.
  induction s as [|c r [[n Hn] Hend]]; simpl.
  - split; [now exists 0 | reflexivity].
  - destruct (Ascii.eqb c Js.slash && Js.allSlashes r)%bool eqn:E.
    + split; [|reflexivity].
      exists (S (String.length r)). simpl.
      apply andb_prop in E as [Hc Hr]. apply Ascii.eqb_eq in Hc. subst c.
      now rewrite <- allSlashes_slashes.
    + split.
      * exists n. simpl. now rewrite <- Hn.
      * simpl. destruct (Js.replaceTrailingSlashes r) eqn:R.
        -- simpl in Hn. rewrite Hn, allSlashes_of_slashes, andb_true_r in E.
           exact E.
        -- exact Hend.
Qed.

(** A string without a slash at its end is left as it is. *)
Lemma replaceTrailingSlashes_fixed (s : string) :
  Js.endsWithSlash s = false -> Js.replaceTrailingSlashes s = s.
Proof.
  induction s as [|c r IH]; simpl; [reflexivity|].
  destruct r as [|d r'].
  - intros ->. reflexivity.
  - intros H. specialize (IH H).
    destruct (Ascii.eqb c Js.slash && Js.allSlashes (String d r'))%bool eqn:E.
    + apply andb_prop in E as [_ E]. exfalso.
      clear IH. revert d H E. induction r' as [|x r'' IHr]; intros d H E.
      * simpl in *. rewrite andb_true_r in E. congruence.
      * apply (IHr x).
        -- exact H.
        -- simpl in E. apply andb_prop in E as [_ E]. exact E.
    + now rewrite IH.
Qed.

(* ================================================================= *)
(** ** Objects and maps *)

Section ObjFacts.
Variable V : Type.
Implicit Types (o : Obj.t V) (k : string) (v : V).

Lemma Obj_get_update k k' v o :
  Obj.get k (Obj.update k' v o) =
  if String.eqb k' k then option_map (fun _ => v) (Obj.get k o) else Obj.get k o.
Proof.
  induction o as [|[k1 v1] r IH]; simpl.
  - now destruct (String.eqb k' k).
  - destruct (String.eqb k1 k') eqn:E1; simpl.
    + apply String.eqb_eq in E1. subst k1.
      destruct (String.eqb k' k); reflexivity.
    + destruct (String.eqb k1 k) eqn:E2.
      * apply String.eqb_eq in E2. subst k1.
        rewrite String.eqb_sym, E1. reflexivity.
      * exact IH.
Qed.

Lemma Obj_get_insertIndex i k k' v o :
  Obj.get k' o = None ->
  Obj.get k (Obj.insertIndex i k' v o) =
  if String.eqb k' k then Some v else Obj.get k o.
Proof.
  induction o as [|[k1 v1] r IH]; simpl; intros Hn.
  - reflexivity.
  - destruct (String.eqb k1 k') eqn:E1; [discriminate|].
    destruct (Obj.arrayIndex k1) as [j|]; [destruct (N.ltb j i)|]; simpl;
      try reflexivity.
    rewrite (IH Hn).
    destruct (String.eqb k' k) eqn:E2; [|reflexivity].
    apply String.eqb_eq in E2. subst k'. now rewrite E1.
Qed.

Lemma Obj_get_app_new k k' v o :
  Obj.get k' o = None ->
  Obj.get k (o ++ [(k', v)])%list =
  if String.eqb k' k then Some v else Obj.get k o.
Proof.
  induction o as [|[k1 v1] r IH]; simpl; intros Hn.
  - reflexivity.
  - destruct (String.eqb k1 k') eqn:E1; [discriminate|].
    rewrite (IH Hn).
    destruct (String.eqb k' k) eqn:E2; [|reflexivity].
    apply String.eqb_eq in E2. subst k'. now rewrite E1.
Qed.

(** Reading after [o[k'] = v]. *)
Lemma Obj_get_set k k' v o :
  Obj.get k (Obj.set k' v o) = if String.eqb k' k then Some v else Obj.get k o.
Proof.
  unfold Obj.set, Obj.has.
  destruct (Obj.get k' o) eqn:G.
  - rewrite Obj_get_update.
    destruct (String.eqb k' k) eqn:E; [|reflexivity].
    apply String.eqb_eq in E. subst k'. now rewrite G.
  - destruct (Obj.arrayIndex k').
    + now apply Obj_get_insertIndex.
    + now apply Obj_get_app_new.
Qed.

Lemma Obj_get_none_notin k o : ~ In k (Obj.keys o) -> Obj.get k o = None.
Proof.
  induction o as [|[k1 v1] r IH]; simpl; intros H; [reflexivity|].
  destruct (String.eqb k1 k) eqn:E.
  - apply String.eqb_eq in E. tauto.
  - apply IH. tauto.
Qed.

(** Reading after a spread: the source wins, key by key. *)
Lemma Obj_get_spread k (target src : Obj.t V) :
  NoDup (Obj.keys src) ->
  Obj.get k (Obj.spread target src) =
  match Obj.get k src with
  | Some v => Some v
  | None => Obj.get k target
  end.
Proof.
  unfold Obj.spread. revert target.
  induction src as [|[k1 v1] r IH]; simpl; intros target Hnd.
  - reflexivity.
  - inversion Hnd as [|? ? Hnotin Hnd']; subst.
    rewrite (IH _ Hnd'), Obj_get_set.
    destruct (String.eqb k1 k) eqn:E; [|reflexivity].
    apply String.eqb_eq in E. subst k1.
    now rewrite (Obj_get_none_notin _ _ Hnotin).
Qed.

End ObjFacts.

Section MapFacts.
Variable V : Type.
Implicit Types (m : JsMap.t V) (k : string) (v : V).

Lemma JsMap_get_set_same k v m : JsMap.get k (JsMap.set k v m) = Some v.
Proof.
  induction m as [|[k1 v1] r IH]; simpl.
  - now rewrite String.eqb_refl.
  - destruct (String.eqb k1 k) eqn:E; simpl; rewrite E; [reflexivity | exact IH].
Qed.

Lemma JsMap_get_set_other k k' v m :
  k <> k' -> JsMap.get k' (JsMap.set k v m) = JsMap.get k' m.
Proof.
  intros Hne. induction m as [|[k1 v1] r IH]; simpl.
  - destruct (String.eqb k k') eqn:E; [|reflexivity].
    apply String.eqb_eq in E. contradiction.
  - destruct (String.eqb k1 k) eqn:E; simpl.
    + apply String.eqb_eq in E. subst k1.
      destruct (String.eqb k k') eqn:E'; [|reflexivity].
      apply String.eqb_eq in E'. contradiction.
    + now rewrite IH.
Qed.

(** Setting a key twice is setting it once, to the later value. *)
Lemma JsMap_set_set k v1 v2 m :
  JsMap.set k v2 (JsMap.set k v1 m) = JsMap.set k v2 m.
Proof.
  induction m as [|[k1 w] r IH]; simpl.
  - now rewrite String.eqb_refl.
  - destruct (String.eqb k1 k) eqn:E; simpl; rewrite E; [reflexivity|].
    now rewrite IH.
Qed.

Lemma JsMap_keys_set_in k v m x :
  In x (JsMap.keys (JsMap.set k v m)) <-> x = k \/ In x (JsMap.keys m).
Proof.
  induction m as [|[k1 w] r IH]; simpl.
  - intuition.
  - destruct (String.eqb k1 k) eqn:E; simpl.
    + apply String.eqb_eq in E. subst k1. intuition.
    + rewrite IH. intuition.
Qed.

(** [set] keeps the keys distinct. *)
Lemma JsMap_set_NoDup k v m :
  NoDup (JsMap.keys m) -> NoDup (JsMap.keys (JsMap.set k v m)).
Proof.
  induction m as [|[k1 w] r IH]; simpl; intros Hnd.
  - constructor; [intros [] | constructor].
  - inversion Hnd as [|? ? Hnotin Hnd']; subst.
    destruct (String.eqb k1 k) eqn:E; simpl.
    + constructor; assumption.
    + constructor; [|now apply IH].
      rewrite JsMap_keys_set_in. intros [->|H]; [|contradiction].
      now rewrite String.eqb_refl in E.
Qed.

Lemma JsMap_has_false k m : JsMap.has k m = false <-> ~ In k (JsMap.keys m).
Proof.
  unfold JsMap.has.
  induction m as [|[k1 w] r IH]; simpl.
  - intuition.
  - destruct (String.eqb k1 k) eqn:E.
    + apply String.eqb_eq in E. subst k1. split; [discriminate | tauto].
    + rewrite IH. apply String.eqb_neq in E. tauto.
Qed.

Lemma JsMap_has_get k m v : JsMap.get k m = Some v -> JsMap.has k m = true.
Proof. unfold JsMap.has. now intros ->. Qed.

(** With distinct keys, the entry of a key is the only one under it. *)
Lemma JsMap_get_unique k m v w :
  NoDup (JsMap.keys m) -> JsMap.get k m = Some v -> In (k, w) m -> w = v.
Proof.
  induction m as [|[k1 v1] r IH]; simpl; intros Hnd Hget Hin; [contradiction|].
  inversion Hnd as [|? ? Hnotin Hnd']; subst.
  destruct (String.eqb k1 k) eqn:E.
  - apply String.eqb_eq in E. subst k1.
    destruct Hin as [Heq|Hin]; [congruence|].
    exfalso. apply Hnotin. change (In (fst (k, w)) (map fst r)).
    now apply in_map.
  - destruct Hin as [Heq|Hin].
    + inversion Heq; subst. now rewrite String.eqb_refl in E.
    + now apply IH.
Qed.

End MapFacts.

(* ================================================================= *)
(** ** The handlers, one by one *)

Ltac run :=
  unfold bind, ret, throw, tryCatch, liftOutcome, getApis, setApis, fetch; simpl.

Section HandlerFacts.
Context {host : Host}.

Lemma addApi_run (args : Args.t) (st : Server) :
  addApi args st =
  (Returned (textResult (addedText (Args.name args)
                           (Js.replaceTrailingSlashes (Args.baseUrl args)))),
   {| apis := JsMap.set (Args.name args) (entryOf args) (apis st);
      trace := trace st |}).
Proof. reflexivity. Qed.

Lemma listApis_state (st : Server) : snd (listApis st) = st.
Proof.
  unfold listApis. run. destruct (JsMap.size (apis st) =? 0)%nat; reflexivity.
Qed.

Lemma fetch_run (req : Request.t) (st : Server) :
  fetch req st =
  (match network (trace st) req with
   | Rejected e => Thrown e
   | Resolved r => Returned r
   end, after st [req]).
Proof. unfold fetch, after. now destruct (network (trace st) req). Qed.

(** The equations of the two loops. *)
Lemma docLoop_nil (cfg : ApiConfig.t) (d : string) (st : Server) :
  docLoop cfg [] d st = (Returned (Next d), st).
Proof. reflexivity. Qed.

Lemma docLoop_cons (cfg : ApiConfig.t) (p : string) (rest : list string)
    (d : string) (st : Server) :
  docLoop cfg (p :: rest) d st =
  match network (trace st) (docRequest cfg p) with
  | Rejected _ => docLoop cfg rest d (after st [docRequest cfg p])
  | Resolved r =>
      match inspectDoc p r d with
      | (_, Returned (Some res)) =>
          (Returned (Return res), after st [docRequest cfg p])
      | (d1, _) => docLoop cfg rest d1 (after st [docRequest cfg p])
      end
  end.
Proof.
  simpl. rewrite fetch_run.
  now destruct (network (trace st) (docRequest cfg p)).
Qed.

Lemma endpointLoop_nil (cfg : ApiConfig.t) (d : string) (st : Server) :
  endpointLoop cfg [] d st = (Returned d, st).
Proof. reflexivity. Qed.

Lemma endpointLoop_cons (cfg : ApiConfig.t) (p : string) (rest : list string)
    (d : string) (st : Server) :
  endpointLoop cfg (p :: rest) d st =
  endpointLoop cfg rest
    (d ++ reportOf p (Some (network (trace st) (headRequest cfg p))))
    (after st [headRequest cfg p]).
Proof.
  simpl. rewrite fetch_run. unfold reportOf.
  destruct (network (trace st) (headRequest cfg p)) as [e|r].
  - now rewrite append_empty_r.
  - destruct (Response.ok r); [reflexivity | now rewrite append_empty_r].
Qed.

#[local] Arguments docLoop : simpl never.
#[local] Arguments endpointLoop : simpl never.

(** The first loop, unfolded in [discoverApi]. *)
Lemma discoverApi_run (args : Args.t) (st : Server) (cfg : ApiConfig.t) :
  JsMap.get (Args.api args) (apis st) = Some cfg ->
  discoverApi args st =
  match docLoop cfg commonPaths (discoverHeader (Args.api args)) st with
  | (Returned (Return res), st1) => (Returned res, st1)
  | (Returned (Next d), st1) =>
      match endpointLoop cfg commonEndpoints (d ++ notFoundLines) st1 with
      | (Returned d2, st2) => (Returned (textResult (d2 ++ tipLine)), st2)
      | (Thrown e, st2) => (Thrown e, st2)
      end
  | (Thrown e, st1) => (Thrown e, st1)
  end.
Proof.
  intros Hget. unfold discoverApi, bind, getApis, ret, throw.
  cbv beta match. rewrite (JsMap_has_get _ _ Hget), Hget.
  cbn [negb]. cbv beta match.
  destruct (docLoop cfg commonPaths (discoverHeader (Args.api args)) st)
    as [[[d|res]|e] st1]; reflexivity.
Qed.

Lemma discoverApi_unregistered (args : Args.t) (st : Server) :
  JsMap.get (Args.api args) (apis st) = None ->
  discoverApi args st = (Thrown (notFoundDiscover (Args.api args)), st).
Proof.
  intros Hget. unfold discoverApi, bind, getApis, ret, throw, JsMap.has.
  cbv beta match. now rewrite Hget.
Qed.


Lemma docLoop_apis (cfg : ApiConfig.t) (paths : list string) :
  forall d st, apis (snd (docLoop cfg paths d st)) = apis st.
Proof.
  induction paths as [|p rest IH]; intros d st; [reflexivity|].
  rewrite docLoop_cons.
  destruct (network (trace st) (docRequest cfg p)) as [e|r].
  - now rewrite IH.
  - destruct (inspectDoc p r d) as [d1 [[res|]|e]];
      try reflexivity; now rewrite IH.
Qed.

Lemma endpointLoop_apis (cfg : ApiConfig.t) (eps : list string) :
  forall d st, apis (snd (endpointLoop cfg eps d st)) = apis st.
Proof.
  induction eps as [|p rest IH]; intros d st; [reflexivity|].
  rewrite endpointLoop_cons. now rewrite IH.
Qed.

Lemma callApi_apis (args : Args.t) (st : Server) :
  apis (snd (callApi args st)) = apis st.
Proof.
  unfold callApi. run.
  destruct (JsMap.has (Args.api args) (apis st)); simpl; [|reflexivity].
  destruct (JsMap.get (Args.api args) (apis st)) as [cfg|]; [|reflexivity].
  match goal with |- context [network ?t ?q] => destruct (network t q) as [e|r] end;
    [reflexivity|].
  destruct (Response.text r); reflexivity.
Qed.

Lemma discoverApi_apis (args : Args.t) (st : Server) :
  apis (snd (discoverApi args st)) = apis st.
Proof.
  destruct (JsMap.get (Args.api args) (apis st)) as [cfg|] eqn:Hget;
    [|now rewrite discoverApi_unregistered].
  rewrite (discoverApi_run _ _ Hget).
  pose proof (docLoop_apis cfg commonPaths (discoverHeader (Args.api args)) st) as H1.
  destruct (docLoop cfg commonPaths (discoverHeader (Args.api args)) st)
    as [[[d|res]|e] st1]; simpl in H1; try exact H1.
  pose proof (endpointLoop_apis cfg commonEndpoints (d ++ notFoundLines) st1) as H2.
  destruct (endpointLoop cfg commonEndpoints (d ++ notFoundLines) st1)
    as [[d2|e] st2]; simpl in *; congruence.
Qed.

Lemma callTool_state (name : string) (args : Args.t) (st : Server) :
  snd (callTool name args st) = snd (dispatch name args st).
Proof.
  unfold callTool, tryCatch.
  destruct (dispatch name args st) as [[r|e] st1]; reflexivity.
Qed.

(** Every tool but [add_api] leaves the registry as it is. *)
Lemma dispatch_apis (name : string) (args : Args.t) (st : Server) :
  String.eqb name "add_api" = false ->
  apis (snd (dispatch name args st)) = apis st.
Proof.
  unfold dispatch. intros ->.
  destruct (String.eqb name "list_apis"); [now rewrite listApis_state|].
  destruct (String.eqb name "call_api"); [apply callApi_apis|].
  destruct (String.eqb name "discover_api"); [apply discoverApi_apis|].
  reflexivity.
Qed.

(** A tool call keeps the keys of the registry distinct. *)
Lemma callTool_NoDup (name : string) (args : Args.t) (st : Server) :
  NoDup (JsMap.keys (apis st)) ->
  NoDup (JsMap.keys (apis (snd (callTool name args st)))).
Proof.
  intros Hnd. rewrite callTool_state.
  destruct (String.eqb name "add_api") eqn:E.
  - unfold dispatch. rewrite E, addApi_run. simpl.
    now apply JsMap_set_NoDup.
  - now rewrite dispatch_apis.
Qed.

Lemma runCalls_NoDup (calls : list (string * Args.t)) :
  forall st, NoDup (JsMap.keys (apis st)) ->
             NoDup (JsMap.keys (apis (runCalls calls st))).
Proof.
  induction calls as [|[name args] rest IH]; intros st Hnd; simpl.
  - exact Hnd.
  - apply IH. now apply callTool_NoDup.
Qed.

Lemma inspectDoc_oneText (p : string) (r : Response.t) (d d1 : string)
    (res : ToolResult) :
  inspectDoc p r d = (d1, Returned (Some res)) -> res = textResult d1.
Proof.
  unfold inspectDoc.
  destruct (Response.ok r); [|discriminate].
  destruct (json r) as [doc|]; [|discriminate].
  destruct (docFound doc) as [[|]|]; try discriminate.
  destruct (getProp (Some doc) "paths") as [paths|]; [|discriminate].
  destruct (if truthy paths
            then listEndpoints paths ((d ++ foundLine p) ++ endpointsHeader)
            else (d ++ foundLine p, Returned tt)) as [d2 [u|e]];
    intros H; inversion H; reflexivity.
Qed.

Lemma docLoop_oneText (cfg : ApiConfig.t) (paths : list string) :
  forall d st res st1,
    docLoop cfg paths d st = (Returned (Return res), st1) -> oneText res.
Proof.
  induction paths as [|p rest IH]; intros d st res st1.
  - rewrite docLoop_nil. discriminate.
  - rewrite docLoop_cons.
    destruct (network (trace st) (docRequest cfg p)) as [e|r]; [apply IH|].
    destruct (inspectDoc p r d) as [d1 o] eqn:I.
    destruct o as [[res'|]|e]; try apply IH.
    intros H. inversion H; subst. exists d1.
    now apply inspectDoc_oneText in I.
Qed.

Lemma docLoop_no_throw (cfg : ApiConfig.t) (paths : list string) :
  forall d st, exists flow st1, docLoop cfg paths d st = (Returned flow, st1).
Proof.
  induction paths as [|p rest IH]; intros d st.
  - rewrite docLoop_nil. eauto.
  - rewrite docLoop_cons.
    destruct (network (trace st) (docRequest cfg p)) as [e|r]; [apply IH|].
    destruct (inspectDoc p r d) as [d1 [[res|]|e]]; eauto.
Qed.

Lemma endpointLoop_no_throw (cfg : ApiConfig.t) (eps : list string) :
  forall d st, exists d1 st1, endpointLoop cfg eps d st = (Returned d1, st1).
Proof.
  induction eps as [|p rest IH]; intros d st.
  - rewrite endpointLoop_nil. eauto.
  - rewrite endpointLoop_cons. apply IH.
Qed.

(** [discoverApi] of a registered API returns: no probe makes it throw. *)
Lemma discoverApi_returns (args : Args.t) (st : Server) (cfg : ApiConfig.t) :
  JsMap.get (Args.api args) (apis st) = Some cfg ->
  exists t st1, discoverApi args st = (Returned (textResult t), st1).
Proof.
  intros Hget. rewrite (discoverApi_run _ _ Hget).
  destruct (docLoop_no_throw cfg commonPaths (discoverHeader (Args.api args)) st)
    as (flow & st1 & Hloop).
  rewrite Hloop. destruct flow as [d|res].
  - destruct (endpointLoop_no_throw cfg commonEndpoints (d ++ notFoundLines) st1)
      as (d1 & st2 & Hep).
    rewrite Hep. eauto.
  - destruct (docLoop_oneText _ _ _ _ Hloop) as [t ->]. eauto.
Qed.

Lemma dispatch_oneText (name : string) (args : Args.t) (st : Server) :
  forall res st1, dispatch name args st = (Returned res, st1) -> oneText res.
Proof.
  intros res st1. unfold dispatch.
  destruct (String.eqb name "add_api").
  { rewrite addApi_run. intros H. inversion H. eexists. reflexivity. }
  destruct (String.eqb name "list_apis").
  { unfold listApis. run.
    destruct (JsMap.size (apis st) =? 0)%nat; intros H; inversion H;
      eexists; reflexivity. }
  destruct (String.eqb name "call_api").
  { unfold callApi. run.
    destruct (JsMap.has (Args.api args) (apis st)); simpl; [|discriminate].
    destruct (JsMap.get (Args.api args) (apis st)) as [cfg|]; [|discriminate].
    match goal with |- context [network ?t ?q] => destruct (network t q) as [e|r] end;
      [discriminate|].
    destruct (Response.text r); [|discriminate].
    intros H. inversion H. eexists. reflexivity. }
  destruct (String.eqb name "discover_api").
  { destruct (JsMap.get (Args.api args) (apis st)) as [cfg|] eqn:Hget.
    - destruct (discoverApi_returns args st Hget) as (t & st2 & ->).
      intros H. inversion H. now exists t.
    - rewrite (discoverApi_unregistered _ _ Hget). discriminate. }
  run. discriminate.
Qed.

Lemma callApi_unregistered (args : Args.t) (st : Server) :
  JsMap.get (Args.api args) (apis st) = None ->
  callApi args st = (Thrown (notFoundCall (Args.api args)), st).
Proof.
  intros Hget. unfold callApi, bind, getApis, throw, JsMap.has.
  cbv beta match. now rewrite Hget.
Qed.

Lemma callApi_run (args : Args.t) (st : Server) (cfg : ApiConfig.t) :
  JsMap.get (Args.api args) (apis st) = Some cfg ->
  callApi args st =
  (match network (trace st) (callRequest cfg args) with
   | Rejected e => Thrown e
   | Resolved r =>
       match Response.text r with
       | Thrown e => Thrown e
       | Returned t =>
           Returned (textResult (responseMessage (Args.api args)
                                   (callResult r (parseOrText t))))
       end
   end, after st [callRequest cfg args]).
Proof.
  intros Hget. unfold callApi, bind, getApis, throw, ret, liftOutcome.
  cbv beta match. rewrite (JsMap_has_get _ _ Hget), Hget.
  cbn [negb]. cbv beta match. fold (callRequest cfg args).
  rewrite fetch_run.
  destruct (network (trace st) (callRequest cfg args)) as [e|r]; [reflexivity|].
  now destruct (Response.text r).
Qed.

Lemma buildUrl_parts (cfg : ApiConfig.t) (e : string) (params : option (Obj.t string)) :
  buildUrl cfg e params =
  ApiConfig.baseUrl cfg ++ (if Js.startsWithSlash e then e else "/" ++ e) ++ query params.
Proof.
  unfold buildUrl, query. destruct params as [p|].
  - now rewrite append_assoc.
  - now rewrite append_empty_r.
Qed.

End HandlerFacts.

(* ================================================================= *)
(** ** The registry *)

(** C7: [add_api] stores the base URL it is given without the slashes at
    its end and otherwise unchanged: the given URL is the stored one
    followed by slashes only, and the stored one does not end in a
    slash.  The call returns (it never throws) and makes no outbound
    request.  Adding ["https://h.test///"] under any name stores
    ["https://h.test"]. *)
Theorem addApi_strips_trailing_slashes (args : Args.t) (st : Server) :
  (exists result st' cfg n,
      addApi args st = (Returned result, st') /\
      JsMap.get (Args.name args) (apis st') = Some cfg /\
      Args.baseUrl args = ApiConfig.baseUrl cfg ++ Js.slashes n /\
      Js.endsWithSlash (ApiConfig.baseUrl cfg) = false /\
      trace st' = trace st) /\
  (forall name headers,
      exists cfg,
        JsMap.get name (apis (snd (addApi (addArgs name "https://h.test///" headers) st)))
        = Some cfg /\
        ApiConfig.baseUrl cfg = "https://h.test").
Proof.
  split.
  - destruct (replaceTrailingSlashes_spec (Args.baseUrl args)) as [[n Hn] Hend].
    rewrite addApi_run. do 2 eexists. exists (entryOf args), n.
    split; [reflexivity|]. simpl.
    rewrite JsMap_get_set_same. auto.
  - intros name headers. rewrite addApi_run. simpl.
    rewrite JsMap_get_set_same. eexists. split; reflexivity.
Qed.

(** C3: the headers [add_api] stores are the default
    [Content-Type: application/json] overridden, key by key, by the
    headers of the caller: a key the caller gives reads as the caller's
    value, any other key reads as in the default.  Without a [headers]
    argument the stored headers are exactly the default. *)
Theorem addApi_headers_default_overridden (args : Args.t) (st : Server) :
  NoDup (Obj.keys (match Args.headers args with Some h => h | None => [] end)) ->
  (exists cfg,
      JsMap.get (Args.name args) (apis (snd (addApi args st))) = Some cfg /\
      forall k,
        Obj.get k (ApiConfig.headers cfg) =
        match Obj.get k (match Args.headers args with Some h => h | None => [] end) with
        | Some v => Some v
        | None => Obj.get k [ ("Content-Type", "application/json") ]
        end) /\
  (forall name baseUrl,
      exists cfg,
        JsMap.get name (apis (snd (addApi (addArgs name baseUrl None) st))) = Some cfg /\
        ApiConfig.headers cfg = [ ("Content-Type", "application/json") ]).
Proof.
  intros Hnd. split.
  - rewrite addApi_run. simpl. rewrite JsMap_get_set_same.
    exists (entryOf args). split; [reflexivity|].
    intros k. unfold entryOf. simpl. now rewrite Obj_get_spread.
  - intros name baseUrl. rewrite addApi_run. simpl.
    rewrite JsMap_get_set_same. eexists. split; reflexivity.
Qed.

(** C4: in every state the server reaches, the keys of the registry are
    distinct; and after two [add_api] calls with the same name the
    registry is the one the second call alone would have left: the name
    maps to the entry built from the second call's arguments, and to no
    other entry. *)
Theorem addApi_last_write_wins {host : Host}
    (calls : list (string * Args.t)) (a1 a2 : Args.t) :
  Args.name a1 = Args.name a2 ->
  let st := runCalls calls newServer in
  let st2 := snd (addApi a2 (snd (addApi a1 st))) in
  NoDup (JsMap.keys (apis st)) /\
  NoDup (JsMap.keys (apis st2)) /\
  apis st2 = apis (snd (addApi a2 st)) /\
  JsMap.get (Args.name a2) (apis st2) = Some (entryOf a2) /\
  (forall cfg, In (Args.name a2, cfg) (apis st2) -> cfg = entryOf a2).
Proof.
  intros Hname st st2.
  assert (Hst : NoDup (JsMap.keys (apis st))).
  { apply runCalls_NoDup. constructor. }
  assert (Heq : apis st2 = JsMap.set (Args.name a2) (entryOf a2) (apis st)).
  { subst st2. rewrite !addApi_run. simpl. rewrite Hname.
    apply JsMap_set_set. }
  assert (Hst2 : NoDup (JsMap.keys (apis st2))).
  { rewrite Heq. now apply JsMap_set_NoDup. }
  split; [exact Hst|]. split; [exact Hst2|]. split; [|split].
  - now rewrite Heq, addApi_run.
  - rewrite Heq. apply JsMap_get_set_same.
  - intros cfg Hin.
    apply (JsMap_get_unique (Args.name a2) (apis st2)); try assumption.
    rewrite Heq. apply JsMap_get_set_same.
Qed.

(** C10: [list_apis], [call_api] and [discover_api] leave the registry
    exactly as it was, whether they return or throw. *)
Theorem registry_frame {host : Host} (name : string) (args : Args.t) (st : Server) :
  In name [ "list_apis"; "call_api"; "discover_api" ] ->
  apis (snd (callTool name args st)) = apis st /\
  apis (snd (listApis st)) = apis st /\
  apis (snd (callApi args st)) = apis st /\
  apis (snd (discoverApi args st)) = apis st.
Proof.
  intros Hin. split; [|split; [|split]].
  - rewrite callTool_state. apply dispatch_apis.
    simpl in Hin. destruct Hin as [<-|[<-|[<-|[]]]]; reflexivity.
  - now rewrite listApis_state.
  - apply callApi_apis.
  - apply discoverApi_apis.
Qed.

(* ================================================================= *)
(** ** call_api *)

(** C2: when [api] is not a key of the registry, [callApi] throws the
    error whose message tells to use [list_apis]; the request handler
    answers with that message as an error result; the state is
    untouched, so no call to [fetch] was made. *)
Theorem callApi_unknown_api_not_found {host : Host} (args : Args.t) (st : Server) :
  ~ In (Args.api args) (JsMap.keys (apis st)) ->
  callApi args st =
  (Thrown (Error ("API " ++ Js.dq ++ Args.api args ++ Js.dq
                  ++ " not found. Use list_apis to see available APIs.")), st) /\
  callTool "call_api" args st =
  (Returned
     {| content :=
          [ {| type := "text";
               text := "Error: API " ++ Js.dq ++ Args.api args ++ Js.dq
                       ++ " not found. Use list_apis to see available APIs." |} ];
        isError := Some true |}, st) /\
  trace (snd (callTool "call_api" args st)) = trace st.
Proof.
  intros Hnot. apply JsMap_has_false in Hnot.
  assert (Hget : JsMap.get (Args.api args) (apis st) = None).
  { unfold JsMap.has in Hnot.
    now destruct (JsMap.get (Args.api args) (apis st)). }
  assert (Hcall : callApi args st = (Thrown (notFoundCall (Args.api args)), st))
    by now apply callApi_unregistered.
  assert (Htool : callTool "call_api" args st =
                  (Returned (errorResult (notFoundCall (Args.api args))), st)).
  { unfold callTool, tryCatch.
    change (dispatch "call_api" args) with (callApi args).
    now rewrite Hcall. }
  split; [exact Hcall|]. split; [exact Htool|]. now rewrite Htool.
Qed.

(** C8: for a registered API and an endpoint without a leading slash,
    [callApi] does with [e] exactly what it does with ["/" ++ e]; the
    URL it calls is the base URL, a slash, the endpoint as given and
    the query.  For an endpoint with a leading slash the URL is the
    base URL, the endpoint as given and the query: no slash is added,
    and in both cases nothing is removed from the endpoint. *)
Theorem callApi_endpoint_separator {host : Host}
    (args : Args.t) (st : Server) (cfg : ApiConfig.t) (e e' : string) :
  JsMap.get (Args.api args) (apis st) = Some cfg ->
  Js.startsWithSlash e = false ->
  Js.startsWithSlash e' = true ->
  callApi (withEndpoint args e) st = callApi (withEndpoint args ("/" ++ e)) st /\
  (exists req,
      trace (snd (callApi (withEndpoint args e) st)) = (trace st ++ [req])%list /\
      Request.url req = ApiConfig.baseUrl cfg ++ "/" ++ e ++ query (Args.params args)) /\
  (exists req,
      trace (snd (callApi (withEndpoint args e') st)) = (trace st ++ [req])%list /\
      Request.url req = ApiConfig.baseUrl cfg ++ e' ++ query (Args.params args)).
Proof.
  intros Hget He He'.
  assert (Hreq : callRequest cfg (withEndpoint args e)
                 = callRequest cfg (withEndpoint args ("/" ++ e))).
  { unfold callRequest, withEndpoint. simpl.
    rewrite !buildUrl_parts, He. reflexivity. }
  split; [|split].
  - rewrite (callApi_run (withEndpoint args e) st Hget).
    rewrite (callApi_run (withEndpoint args ("/" ++ e)) st Hget).
    now rewrite Hreq.
  - exists (callRequest cfg (withEndpoint args e)).
    rewrite (callApi_run (withEndpoint args e) st Hget). split; [reflexivity|].
    unfold callRequest, withEndpoint. simpl.
    now rewrite buildUrl_parts, He.
  - exists (callRequest cfg (withEndpoint args e')).
    rewrite (callApi_run (withEndpoint args e') st Hget). split; [reflexivity|].
    unfold callRequest, withEndpoint. simpl.
    now rewrite buildUrl_parts, He'.
Qed.

(** C6: when the outbound call of [callApi] resolves and its body is
    read as text, the call returns (handler and request handler alike,
    without an error flag) the response line followed by the
    serialized result object, whose [data] property is the parsed body
    when [JSON.parse] accepts the text and the text itself, as a
    string, when it throws. *)
Theorem callApi_body_parsed_or_raw_text {host : Host}
    (args : Args.t) (st : Server) (cfg : ApiConfig.t)
    (response : Response.t) (responseText : string) :
  JsMap.get (Args.api args) (apis st) = Some cfg ->
  network (trace st) (callRequest cfg args) = Resolved response ->
  Response.text response = Returned responseText ->
  callApi args st =
  (Returned
     {| content :=
          [ {| type := "text";
               text :=
                 "🌐 Response from API " ++ Js.dq ++ Args.api args ++ Js.dq ++ ":"
                 ++ Js.nl ++ Js.nl
                 ++ JSON_stringify_indent2
                      (JObject
                         [ ("status", JNumber (numberOfN (Response.status response)));
                           ("statusText", JString (Response.statusText response));
                           ("headers",
                             JObject
                               (map (fun kv => (fst kv, JString (snd kv)))
                                    (Obj.fromEntries (Response.headers response))));
                           ("data",
                             match JSON_parse responseText with
                             | Returned v => v
                             | Thrown _ => JString responseText
                             end) ]) |} ];
        isError := None |},
   {| apis := apis st; trace := (trace st ++ [ callRequest cfg args ])%list |}) /\
  callTool "call_api" args st = callApi args st.
Proof.
  intros Hget Hnet Htext.
  assert (Hcall : callApi args st =
                  (Returned (textResult (responseMessage (Args.api args)
                     (callResult response (parseOrText responseText)))),
                   after st [callRequest cfg args])).
  { rewrite (callApi_run args st Hget), Hnet, Htext. reflexivity. }
  split.
  - rewrite Hcall. reflexivity.
  - unfold callTool, tryCatch.
    change (dispatch "call_api" args) with (callApi args).
    now rewrite Hcall.
Qed.

(* ================================================================= *)
(** ** discover_api *)

Lemma concat_empty_cons (x : string) (l : list string) :
  String.concat "" (x :: l) = x ++ String.concat "" l.
Proof. destruct l; simpl; [now rewrite append_empty_r | reflexivity]. Qed.

Lemma forallb_seq_shift (f : nat -> bool) (n : nat) :
  forallb f (seq 1 n) = forallb (fun k => f (S k)) (seq 0 n).
Proof.
  rewrite <- seq_shift. induction (seq 0 n) as [|k l IH]; simpl;
    [reflexivity | now rewrite IH].
Qed.

Section DiscoverFacts.
Context {host : Host}.

#[local] Arguments docLoop : simpl never.
#[local] Arguments endpointLoop : simpl never.

Lemma answerAt_zero (before : list Request.t) (req : Request.t) (reqs : list Request.t) :
  answerAt before (req :: reqs) 0 = Some (network before req).
Proof. unfold answerAt. simpl. now rewrite app_nil_r. Qed.

Lemma answerAt_succ (before : list Request.t) (req : Request.t)
    (reqs : list Request.t) (k : nat) :
  answerAt before (req :: reqs) (S k) = answerAt (before ++ [req])%list reqs k.
Proof.
  unfold answerAt. simpl. destruct (nth_error reqs k); [|reflexivity].
  now rewrite <- app_assoc.
Qed.

Lemma allMiss_cons (before : list Request.t) (req : Request.t) (reqs : list Request.t) :
  allMiss before (req :: reqs) =
  (negb (yieldsDoc (network before req)) && allMiss (before ++ [req])%list reqs)%bool.
Proof.
  unfold allMiss. cbn [List.length seq forallb].
  rewrite answerAt_zero, forallb_seq_shift. f_equal.
  induction (seq 0 (List.length reqs)) as [|k l IH]; [reflexivity|].
  cbn [forallb]. now rewrite answerAt_succ, IH.
Qed.

Lemma after_after (st : Server) (l1 l2 : list Request.t) :
  after (after st l1) l2 = after st (l1 ++ l2).
Proof. unfold after. simpl. now rewrite app_assoc. Qed.

Lemma after_nil (st : Server) : after st [] = st.
Proof. unfold after. rewrite app_nil_r. now destruct st. Qed.

(** The condition of the handler holds exactly when one of the three
    properties is truthy; on [null] it throws. *)
Lemma docFound_namesDoc (doc : JValue) :
  match docFound doc with
  | Returned b => b
  | Thrown _ => false
  end = namesDoc doc.
Proof.
  unfold docFound, namesDoc. cbn [existsb].
  destruct doc as [| b | x | s | l | o]; try reflexivity.
  cbn [getProp].
  destruct (truthy (Obj.get "paths" o)); [reflexivity|].
  destruct (truthy (Obj.get "swagger" o)); [reflexivity|].
  now rewrite orb_false_r.
Qed.

Lemma json_parts (r : Response.t) :
  json r = match Response.text r with
           | Returned t => JSON_parse t
           | Thrown e => Thrown e
           end.
Proof. reflexivity. Qed.

(** A probe that does not yield documentation leaves [discovered] as
    it is and lets the loop go on. *)
Lemma docLoop_cons_miss (cfg : ApiConfig.t) (p : string) (rest : list string)
    (d : string) (st : Server) :
  yieldsDoc (network (trace st) (docRequest cfg p)) = false ->
  docLoop cfg (p :: rest) d st = docLoop cfg rest d (after st [docRequest cfg p]).
Proof.
  intros Hmiss. rewrite docLoop_cons.
  destruct (network (trace st) (docRequest cfg p)) as [e|r]; [reflexivity|].
  unfold yieldsDoc in Hmiss. unfold inspectDoc.
  destruct (Response.ok r); [|reflexivity]. cbn [andb] in Hmiss.
  rewrite json_parts.
  destruct (Response.text r) as [t|e]; [|reflexivity].
  destruct (JSON_parse t) as [doc|e]; [|reflexivity].
  rewrite <- docFound_namesDoc in Hmiss.
  destruct (docFound doc) as [[|]|e]; [discriminate|reflexivity|reflexivity].
Qed.

Lemma docLoop_skip (cfg : ApiConfig.t) (pre rest : list string) :
  forall d st,
    allMiss (trace st) (map (docRequest cfg) pre) = true ->
    docLoop cfg (pre ++ rest) d st =
    docLoop cfg rest d (after st (map (docRequest cfg) pre)).
Proof.
  induction pre as [|q pre IH]; intros d st Hmiss; simpl.
  - now rewrite after_nil.
  - simpl in Hmiss. rewrite allMiss_cons in Hmiss.
    apply andb_prop in Hmiss as [H0 Hrest].
    apply negb_true_iff in H0.
    rewrite (docLoop_cons_miss _ _ _ _ _ H0).
    rewrite (IH d (after st [docRequest cfg q]) Hrest).
    now rewrite after_after.
Qed.

Lemma forEachEndpoint_listed (paths : option JValue) (ks : list string) :
  forall d,
    forallb (fun k => match methodsAt paths k with
                      | Returned _ => true
                      | Thrown _ => false
                      end) ks = true ->
    forEachEndpoint paths ks d = (d ++ documentedLines paths ks, Returned tt).
Proof.
  unfold documentedLines.
  induction ks as [|k ks IH]; intros d Hall.
  - simpl. now rewrite append_empty_r.
  - cbn [forallb] in Hall. apply andb_prop in Hall as [Hk Hks].
    cbn [map forEachEndpoint].
    rewrite concat_empty_cons.
    unfold methodsOrNone at 1. unfold methodsAt in Hk |- *.
    destruct (getProp paths k) as [item|e]; [|discriminate].
    destruct (objectKeys item) as [ms|e]; [|discriminate].
    rewrite (IH _ Hks). unfold endpointLine. now rewrite append_assoc.
Qed.

Lemma truthy_objectKeys (paths : option JValue) :
  truthy paths = true -> objectKeys paths = Returned (keysOf paths).
Proof.
  unfold keysOf. destruct paths as [[| | | | |]|]; simpl;
    try discriminate; reflexivity.
Qed.

(** A probe that yields a listable document ends the handler. *)
Lemma inspectDoc_hit (p : string) (r : Response.t) (d : string)
    (doc : JValue) (paths : option JValue) :
  Response.ok r = true ->
  json r = Returned doc ->
  docFound doc = Returned true ->
  getProp (Some doc) "paths" = Returned paths ->
  listable paths = true ->
  let d' := d ++ foundLine p
            ++ (if truthy paths
                then endpointsHeader ++ documentedLines paths (keysOf paths)
                else "") in
  inspectDoc p r d = (d', Returned (Some (textResult d'))).
Proof.
  intros Hok Hjson Hfound Hpaths Hlist d'. subst d'.
  unfold inspectDoc. rewrite Hok, Hjson, Hfound, Hpaths.
  destruct (truthy paths) eqn:T.
  - unfold listEndpoints. rewrite (truthy_objectKeys _ T).
    rewrite (forEachEndpoint_listed _ _ _ Hlist).
    now rewrite !append_assoc.
  - now rewrite append_empty_r.
Qed.

(** The second loop probes every endpoint and reports, in order, those
    that answer with a successful status. *)
Lemma endpointLoop_run (cfg : ApiConfig.t) (eps : list string) :
  forall d st,
    endpointLoop cfg eps d st =
    (Returned
       (d ++ String.concat ""
               (map (fun k => reportOf (nth k eps "")
                                (answerAt (trace st) (map (headRequest cfg) eps) k))
                    (seq 0 (List.length eps)))),
     after st (map (headRequest cfg) eps)).
Proof.
  induction eps as [|e eps IH]; intros d st.
  - rewrite endpointLoop_nil, after_nil. simpl. now rewrite append_empty_r.
  - rewrite endpointLoop_cons, IH, after_after.
    cbn [List.length seq]. rewrite <- seq_shift. cbn [map app nth].
    rewrite map_map, concat_empty_cons, answerAt_zero, append_assoc.
    do 5 f_equal.
    apply map_ext. intros k. now rewrite answerAt_succ.
Qed.

(** When the first loop ends without returning, with [discovered] equal
    to [d], the handler probes the six endpoints and returns. *)
Lemma discoverApi_fallback (args : Args.t) (st st1 : Server) (cfg : ApiConfig.t)
    (d : string) :
  JsMap.get (Args.api args) (apis st) = Some cfg ->
  docLoop cfg commonPaths (discoverHeader (Args.api args)) st = (Returned (Next d), st1) ->
  discoverApi args st =
  (Returned
     (textResult
        ((d ++ notFoundLines)
         ++ String.concat ""
              (map (fun k => reportOf (nth k commonEndpoints "")
                               (answerAt (trace st1)
                                  (map (headRequest cfg) commonEndpoints) k))
                   (seq 0 6))
         ++ tipLine)),
   after st1 (map (headRequest cfg) commonEndpoints)).
Proof.
  intros Hget Hloop. rewrite (discoverApi_run _ _ Hget), Hloop, endpointLoop_run.
  now rewrite append_assoc.
Qed.

End DiscoverFacts.

(** C1, as the code has it: let the candidate [p] be the first whose
    probe yields documentation, that is, resolves with a successful
    status and a body that parses to a value one of whose properties
    [paths], [swagger], [openapi] is truthy; and let no value under a
    key of [paths] be [null].  Then [discoverApi] returns the header,
    the line that reports [p] and, when [paths] is truthy, the
    endpoints header and one line per key of [paths] with, in
    brackets, the keys of its value joined by a comma and a space and
    put in upper case; and the calls made are those for the candidates
    up to [p], none for a later one. *)
Theorem discoverApi_first_truthy_document {host : Host}
    (args : Args.t) (st : Server) (cfg : ApiConfig.t)
    (pre : list string) (p : string) (post : list string)
    (r : Response.t) (body : string) (doc : JValue) (paths : option JValue) :
  JsMap.get (Args.api args) (apis st) = Some cfg ->
  [ "/swagger.json"; "/openapi.json"; "/api-docs"; "/docs";
      "/swagger/v1/swagger.json"; "/v1/swagger.json"; "/.well-known/openapi.json" ]
  = (pre ++ p :: post)%list ->
  allMiss (trace st) (map (probeOf None cfg) pre) = true ->
  network (trace st ++ map (probeOf None cfg) pre) (probeOf None cfg p) = Resolved r ->
  Response.ok r = true ->
  Response.text r = Returned body ->
  JSON_parse body = Returned doc ->
  namesDoc doc = true ->
  getProp (Some doc) "paths" = Returned paths ->
  listable paths = true ->
  discoverApi args st =
  (Returned
     {| content :=
          [ {| type := "text";
               text :=
                 ("🔍 Trying to discover endpoints for API "
                  ++ Js.dq ++ Args.api args ++ Js.dq ++ "..." ++ Js.nl ++ Js.nl)
                 ++ ("✅ Documentation found at: " ++ p ++ Js.nl ++ Js.nl)
                 ++ (if truthy paths
                     then "📋 Available endpoints:" ++ Js.nl
                          ++ documentedLines paths (keysOf paths)
                     else "") |} ];
        isError := None |},
   {| apis := apis st;
      trace := (trace st ++ map (probeOf None cfg) (pre ++ [ p ]))%list |}).
Proof.
  intros Hget Hsplit Hmiss Hnet Hok Htext Hparse Hnames Hpaths Hlist.
  change (probeOf None cfg) with (docRequest cfg) in *.
  change ([ "/swagger.json"; "/openapi.json"; "/api-docs"; "/docs";
      "/swagger/v1/swagger.json"; "/v1/swagger.json"; "/.well-known/openapi.json" ]) with commonPaths in Hsplit.
  assert (Hjson : json r = Returned doc) by (now rewrite json_parts, Htext).
  assert (Hfound : docFound doc = Returned true).
  { pose proof (docFound_namesDoc doc) as H. rewrite Hnames in H.
    destruct (docFound doc) as [[|]|e]; congruence. }
  rewrite (discoverApi_run _ _ Hget), Hsplit.
  rewrite (docLoop_skip cfg pre (p :: post) _ _ Hmiss), docLoop_cons.
  change (trace (after st (map (docRequest cfg) pre)))
    with (trace st ++ map (docRequest cfg) pre)%list.
  rewrite Hnet.
  rewrite (inspectDoc_hit p r (discoverHeader (Args.api args)) Hok Hjson Hfound Hpaths Hlist).
  rewrite after_after, map_app. reflexivity.
Qed.

(** C5: when no candidate of the first loop yields documentation, the
    handler has made the seven calls of the first loop and then calls
    each of the six endpoints [/], [/api], [/health], [/status],
    [/users], [/posts], in this order, with method [HEAD] and no body;
    it returns (a rejected call does not make it throw) the header, the
    not-found lines, one line with the status for each endpoint that
    answered with a successful status, in order, and the tip. *)
Theorem discoverApi_fallback_probes_all_endpoints {host : Host}
    (args : Args.t) (st : Server) (cfg : ApiConfig.t) :
  JsMap.get (Args.api args) (apis st) = Some cfg ->
  allMiss (trace st)
    (map (probeOf None cfg)
       [ "/swagger.json"; "/openapi.json"; "/api-docs"; "/docs";
      "/swagger/v1/swagger.json"; "/v1/swagger.json"; "/.well-known/openapi.json" ]) = true ->
  let before :=
    (trace st
     ++ map (probeOf None cfg)
          [ "/swagger.json"; "/openapi.json"; "/api-docs"; "/docs";
      "/swagger/v1/swagger.json"; "/v1/swagger.json"; "/.well-known/openapi.json" ])%list in
  let heads :=
    map (probeOf (Some "HEAD") cfg)
      [ "/"; "/api"; "/health"; "/status"; "/users"; "/posts" ] in
  discoverApi args st =
  (Returned
     {| content :=
          [ {| type := "text";
               text :=
                 ("🔍 Trying to discover endpoints for API "
                  ++ Js.dq ++ Args.api args ++ Js.dq ++ "..." ++ Js.nl ++ Js.nl)
                 ++ "❌ OpenAPI documentation not found." ++ Js.nl ++ Js.nl
                 ++ "🔍 Testing common endpoints..." ++ Js.nl ++ Js.nl
                 ++ String.concat ""
                      (map (fun k =>
                              reportOf
                                (nth k [ "/"; "/api"; "/health"; "/status"; "/users"; "/posts" ] "")
                                (answerAt before heads k))
                           (seq 0 6))
                 ++ Js.nl ++ "💡 Tip: Check the API documentation for specific endpoints." |} ];
        isError := None |},
   {| apis := apis st; trace := (before ++ heads)%list |}).
Proof.
  intros Hget Hmiss before heads. subst before heads.
  change (probeOf None cfg) with (docRequest cfg) in *.
  change (probeOf (Some "HEAD") cfg) with (headRequest cfg).
  change ([ "/swagger.json"; "/openapi.json"; "/api-docs"; "/docs";
      "/swagger/v1/swagger.json"; "/v1/swagger.json"; "/.well-known/openapi.json" ]) with commonPaths in *.
  assert (Hloop : docLoop cfg commonPaths (discoverHeader (Args.api args)) st
                  = (Returned (Next (discoverHeader (Args.api args))),
                     after st (map (docRequest cfg) commonPaths))).
  { rewrite <- (app_nil_r commonPaths) at 1.
    now rewrite (docLoop_skip cfg commonPaths [] _ _ Hmiss). }
  rewrite (discoverApi_fallback _ _ Hget Hloop).
  rewrite append_assoc. reflexivity.
Qed.

(* ================================================================= *)
(** ** The request handler *)

(** C9: a tool call never throws.  It returns one block of text; when
    the handler behind it (or the [switch] itself, on an unknown name)
    throws, the block is ["Error: "] followed by the message of the
    error and the result carries [isError: true]; otherwise it is the
    result of the handler. *)
Theorem callTool_never_throws {host : Host} (name : string) (args : Args.t) (st : Server) :
  exists result st',
    callTool name args st = (Returned result, st') /\
    (exists t, content result = [ {| type := "text"; text := t |} ]) /\
    match dispatch name args st with
    | (Thrown e, st1) =>
        st' = st1 /\
        result = {| content := [ {| type := "text"; text := "Error: " ++ message e |} ];
                    isError := Some true |}
    | (Returned r, st1) => st' = st1 /\ result = r
    end /\
    (if Js.includes [ "add_api"; "list_apis"; "call_api"; "discover_api" ] name
     then True
     else st' = st /\
          result = {| content := [ {| type := "text";
                                      text := "Error: Unknown tool: " ++ name |} ];
                      isError := Some true |}).
Proof.
  unfold callTool, tryCatch.
  destruct (dispatch name args st) as [[r|e] st1] eqn:D.
  - exists r, st1. split; [reflexivity|]. split; [|split; [auto|]].
    + destruct (dispatch_oneText _ _ _ D) as [t ->]. now exists t.
    + unfold dispatch in D. unfold Js.includes. simpl existsb.
      destruct (String.eqb name "add_api"); [exact I|].
      destruct (String.eqb name "list_apis"); [exact I|].
      destruct (String.eqb name "call_api"); [exact I|].
      destruct (String.eqb name "discover_api"); [exact I|].
      discriminate.
  - exists (errorResult e), st1. split; [reflexivity|]. split; [|split; [auto|]].
    + eexists. reflexivity.
    + unfold dispatch in D. unfold Js.includes. simpl existsb.
      destruct (String.eqb name "add_api"); [exact I|].
      destruct (String.eqb name "list_apis"); [exact I|].
      destruct (String.eqb name "call_api"); [exact I|].
      destruct (String.eqb name "discover_api"); [exact I|].
      inversion D; subst. split; reflexivity.
Qed.

(* ================================================================= *)
(** ** The theorems at work *)

Section Witnesses.
Local Existing Instance Sample.host.

Lemma sample_server :
  Sample.server =
  {| apis := [ ("x", Sample.x); ("k", Sample.k); ("n", Sample.n) ]; trace := [] |}.
Proof. reflexivity. Qed.

(** C1, the example of the specification: [/swagger.json] answers 404,
    [/openapi.json] serves a document with the path [/a] and the method
    [get]; two calls are made. *)
Lemma discoverApi_first_truthy_document_witness :
  discoverApi (callArgs "x" "") Sample.server =
  (Returned
     {| content :=
          [ {| type := "text";
               text :=
                 "🔍 Trying to discover endpoints for API " ++ Js.dq ++ "x" ++ Js.dq
                 ++ "..." ++ Js.nl ++ Js.nl
                 ++ "✅ Documentation found at: /openapi.json" ++ Js.nl ++ Js.nl
                 ++ "📋 Available endpoints:" ++ Js.nl
                 ++ "• /a [GET]" ++ Js.nl |} ];
        isError := None |},
   {| apis := [ ("x", Sample.x); ("k", Sample.k); ("n", Sample.n) ];
      trace :=
        [ {| Request.url := "https://h.test/swagger.json"; Request.method := None;
          Request.headers := [ ("Content-Type", "application/json") ];
          Request.body := None |};
        {| Request.url := "https://h.test/openapi.json"; Request.method := None;
          Request.headers := [ ("Content-Type", "application/json") ];
          Request.body := None |} ] |}).
Proof.
  apply (@discoverApi_first_truthy_document Sample.host
           (callArgs "x" "") Sample.server Sample.x
           [ "/swagger.json" ] "/openapi.json"
           [ "/api-docs"; "/docs"; "/swagger/v1/swagger.json";
             "/v1/swagger.json"; "/.well-known/openapi.json" ]
           (Sample.response 200 "OK" Sample.openapiText)
           Sample.openapiText
           Sample.openapiDoc
           (Some (JObject [ ("/a", JObject [ ("get", JObject []) ]) ])));
    reflexivity.
Defined.

(** C1 with a key that is merely present: the first candidate of [k]
    answers 200 with a JSON object whose only key, [swagger], holds the
    empty string; the handler does not report it and goes on to make
    all thirteen calls. *)
Lemma discoverApi_blank_swagger_key_not_reported :
  JsMap.get "k" (apis Sample.server) = Some Sample.k /\
  (exists r o,
      network (trace Sample.server) (docRequest Sample.k "/swagger.json") = Resolved r /\
      Response.ok r = true /\
      json r = Returned (JObject o) /\
      Obj.has "swagger" o = true) /\
  discoverApi (callArgs "k" "") Sample.server =
  (Returned
     (textResult
        (discoverHeader "k" ++ notFoundLines
         ++ okLine "/" 200 ++ okLine "/health" 204 ++ tipLine)),
   after Sample.server
     (map (docRequest Sample.k) commonPaths
      ++ map (headRequest Sample.k) commonEndpoints)) /\
  ~ (exists t,
        discoverApi (callArgs "k" "") Sample.server =
        (Returned (textResult (discoverHeader "k" ++ foundLine "/swagger.json" ++ t)),
         after Sample.server [ docRequest Sample.k "/swagger.json" ])).
Proof.
  split; [reflexivity|]. split.
  { do 2 eexists. repeat split; reflexivity. }
  assert (E : discoverApi (callArgs "k" "") Sample.server =
              (Returned
                 (textResult
                    (discoverHeader "k" ++ notFoundLines
                     ++ okLine "/" 200 ++ okLine "/health" 204 ++ tipLine)),
               after Sample.server
                 (map (docRequest Sample.k) commonPaths
                  ++ map (headRequest Sample.k) commonEndpoints)))
    by reflexivity.
  split; [exact E|].
  intros [t H]. rewrite E in H. discriminate H.
Qed.

(** Outside C1: a value [null] under a key of [paths] makes the listing
    throw inside the [try] block; the handler has already written that
    documentation was found, goes on with the next candidates and ends
    in the second loop. *)
Example discoverApi_null_entry_goes_on :
  discoverApi (callArgs "n" "") Sample.server =
  (Returned
     (textResult
        (discoverHeader "n" ++ foundLine "/swagger.json"
         ++ endpointsHeader ++ endpointLine "/a" "GET"
         ++ notFoundLines ++ tipLine)),
   after Sample.server
     (map (docRequest Sample.n) commonPaths
      ++ map (headRequest Sample.n) commonEndpoints)).
Proof. reflexivity. Qed.

(** C2 at work: [call_api] of [missing]. *)
Lemma callApi_unknown_api_not_found_witness :
  callApi (callArgs "missing" "/e") Sample.server =
  (Thrown (Error ("API " ++ Js.dq ++ "missing" ++ Js.dq
                  ++ " not found. Use list_apis to see available APIs.")),
   Sample.server) /\
  callTool "call_api" (callArgs "missing" "/e") Sample.server =
  (Returned
     {| content :=
          [ {| type := "text";
               text := "Error: API " ++ Js.dq ++ "missing" ++ Js.dq
                       ++ " not found. Use list_apis to see available APIs." |} ];
        isError := Some true |}, Sample.server) /\
  trace (snd (callTool "call_api" (callArgs "missing" "/e") Sample.server)) = [].
Proof.
  apply (@callApi_unknown_api_not_found Sample.host
           (callArgs "missing" "/e") Sample.server).
  simpl. intuition discriminate.
Defined.

(** C3 at work: the caller overrides [Content-Type] and adds a key. *)
Lemma addApi_headers_default_overridden_witness :
  (exists cfg,
      JsMap.get "k"
        (apis (snd (addApi
                      (addArgs "k" "https://k.test"
                         (Some [ ("Authorization", "Bearer t");
                                 ("Content-Type", "text/xml") ]))
                      newServer))) = Some cfg /\
      forall key,
        Obj.get key (ApiConfig.headers cfg) =
        match Obj.get key [ ("Authorization", "Bearer t"); ("Content-Type", "text/xml") ] with
        | Some v => Some v
        | None => Obj.get key [ ("Content-Type", "application/json") ]
        end) /\
  (forall name baseUrl,
      exists cfg,
        JsMap.get name (apis (snd (addApi (addArgs name baseUrl None) newServer)))
        = Some cfg /\
        ApiConfig.headers cfg = [ ("Content-Type", "application/json") ]).
Proof.
  apply (addApi_headers_default_overridden
           (addArgs "k" "https://k.test"
              (Some [ ("Authorization", "Bearer t"); ("Content-Type", "text/xml") ]))
           newServer).
  simpl. repeat constructor; simpl; intuition discriminate.
Defined.

(** C4 at work: [x] is added again, twice, to the server of the
    examples. *)
Lemma addApi_last_write_wins_witness :
  NoDup (JsMap.keys (apis Sample.server)) /\
  NoDup (JsMap.keys
           (apis (snd (addApi (addArgs "x" "https://b.test/" None)
                         (snd (addApi
                                 (addArgs "x" "https://a.test/"
                                    (Some [ ("Authorization", "Bearer a") ]))
                                 Sample.server)))))) /\
  apis (snd (addApi (addArgs "x" "https://b.test/" None)
               (snd (addApi
                       (addArgs "x" "https://a.test/"
                          (Some [ ("Authorization", "Bearer a") ]))
                       Sample.server))))
  = apis (snd (addApi (addArgs "x" "https://b.test/" None) Sample.server)) /\
  JsMap.get "x"
    (apis (snd (addApi (addArgs "x" "https://b.test/" None)
                  (snd (addApi
                          (addArgs "x" "https://a.test/"
                             (Some [ ("Authorization", "Bearer a") ]))
                          Sample.server)))))
  = Some {| ApiConfig.baseUrl := "https://b.test";
            ApiConfig.headers := [ ("Content-Type", "application/json") ] |} /\
  (forall cfg,
      In ("x", cfg)
         (apis (snd (addApi (addArgs "x" "https://b.test/" None)
                       (snd (addApi
                               (addArgs "x" "https://a.test/"
                                  (Some [ ("Authorization", "Bearer a") ]))
                               Sample.server))))) ->
      cfg = {| ApiConfig.baseUrl := "https://b.test";
               ApiConfig.headers := [ ("Content-Type", "application/json") ] |}).
Proof.
  apply (@addApi_last_write_wins Sample.host
           [ ("add_api", addArgs "x" "https://h.test///" None);
             ("add_api", addArgs "k" "https://k.test"
                           (Some [ ("Authorization", "Bearer t") ]));
             ("add_api", addArgs "n" "https://n.test/" None) ]
           (addArgs "x" "https://a.test/" (Some [ ("Authorization", "Bearer a") ]))
           (addArgs "x" "https://b.test/" None)).
  reflexivity.
Defined.

(** C5 at work: no candidate of [k] yields documentation; of the six
    endpoints [/] and [/health] answer with a successful status,
    [/status] answers 500 and the call to [/users] is rejected. *)
Lemma discoverApi_fallback_probes_all_endpoints_witness :
  discoverApi (callArgs "k" "") Sample.server =
  (Returned
     {| content :=
          [ {| type := "text";
               text :=
                 "🔍 Trying to discover endpoints for API " ++ Js.dq ++ "k" ++ Js.dq
                 ++ "..." ++ Js.nl ++ Js.nl
                 ++ "❌ OpenAPI documentation not found." ++ Js.nl ++ Js.nl
                 ++ "🔍 Testing common endpoints..." ++ Js.nl ++ Js.nl
                 ++ "✅ / (200)" ++ Js.nl
                 ++ "✅ /health (204)" ++ Js.nl
                 ++ Js.nl ++ "💡 Tip: Check the API documentation for specific endpoints." |} ];
        isError := None |},
   {| apis := [ ("x", Sample.x); ("k", Sample.k); ("n", Sample.n) ];
      trace :=
        ([ {| Request.url := "https://k.test/swagger.json"; Request.method := None;
          Request.headers := [ ("Content-Type", "application/json"); ("Authorization", "Bearer t") ];
          Request.body := None |};
        {| Request.url := "https://k.test/openapi.json"; Request.method := None;
          Request.headers := [ ("Content-Type", "application/json"); ("Authorization", "Bearer t") ];
          Request.body := None |};
        {| Request.url := "https://k.test/api-docs"; Request.method := None;
          Request.headers := [ ("Content-Type", "application/json"); ("Authorization", "Bearer t") ];
          Request.body := None |};
        {| Request.url := "https://k.test/docs"; Request.method := None;
          Request.headers := [ ("Content-Type", "application/json"); ("Authorization", "Bearer t") ];
          Request.body := None |};
        {| Request.url := "https://k.test/swagger/v1/swagger.json"; Request.method := None;
          Request.headers := [ ("Content-Type", "application/json"); ("Authorization", "Bearer t") ];
          Request.body := None |};
        {| Request.url := "https://k.test/v1/swagger.json"; Request.method := None;
          Request.headers := [ ("Content-Type", "application/json"); ("Authorization", "Bearer t") ];
          Request.body := None |};
        {| Request.url := "https://k.test/.well-known/openapi.json"; Request.method := None;
          Request.headers := [ ("Content-Type", "application/json"); ("Authorization", "Bearer t") ];
          Request.body := None |} ]
         ++ [ {| Request.url := "https://k.test/"; Request.method := Some "HEAD";
          Request.headers := [ ("Content-Type", "application/json"); ("Authorization", "Bearer t") ];
          Request.body := None |};
        {| Request.url := "https://k.test/api"; Request.method := Some "HEAD";
          Request.headers := [ ("Content-Type", "application/json"); ("Authorization", "Bearer t") ];
          Request.body := None |};
        {| Request.url := "https://k.test/health"; Request.method := Some "HEAD";
          Request.headers := [ ("Content-Type", "application/json"); ("Authorization", "Bearer t") ];
          Request.body := None |};
        {| Request.url := "https://k.test/status"; Request.method := Some "HEAD";
          Request.headers := [ ("Content-Type", "application/json"); ("Authorization", "Bearer t") ];
          Request.body := None |};
        {| Request.url := "https://k.test/users"; Request.method := Some "HEAD";
          Request.headers := [ ("Content-Type", "application/json"); ("Authorization", "Bearer t") ];
          Request.body := None |};
        {| Request.url := "https://k.test/posts"; Request.method := Some "HEAD";
          Request.headers := [ ("Content-Type", "application/json"); ("Authorization", "Bearer t") ];
          Request.body := None |} ])%list |}).
Proof.
  apply (@discoverApi_fallback_probes_all_endpoints Sample.host
           (callArgs "k" "") Sample.server Sample.k); reflexivity.
Defined.

(** C6 at work: the body ["not json"] becomes the [data] of the result. *)
Lemma callApi_body_parsed_or_raw_text_witness :
  callApi (callArgs "x" "users") Sample.server =
  (Returned
     {| content :=
          [ {| type := "text";
               text :=
                 "🌐 Response from API " ++ Js.dq ++ "x" ++ Js.dq ++ ":" ++ Js.nl ++ Js.nl
                 ++ "{" ++ Js.nl
                 ++ "  " ++ Sample.q "status" ++ ": 200," ++ Js.nl
                 ++ "  " ++ Sample.q "statusText" ++ ": " ++ Sample.q "OK" ++ "," ++ Js.nl
                 ++ "  " ++ Sample.q "headers" ++ ": {" ++ Js.nl
                 ++ "    " ++ Sample.q "content-type" ++ ": " ++ Sample.q "text/plain" ++ Js.nl
                 ++ "  }," ++ Js.nl
                 ++ "  " ++ Sample.q "data" ++ ": " ++ Sample.q "not json" ++ Js.nl
                 ++ "}" |} ];
        isError := None |},
   {| apis := [ ("x", Sample.x); ("k", Sample.k); ("n", Sample.n) ];
      trace :=
        [ {| Request.url := "https://h.test/users"; Request.method := Some "GET";
             Request.headers := [ ("Content-Type", "application/json") ];
             Request.body := None |} ] |}) /\
  callTool "call_api" (callArgs "x" "users") Sample.server
  = callApi (callArgs "x" "users") Sample.server.
Proof.
  apply (@callApi_body_parsed_or_raw_text Sample.host
           (callArgs "x" "users") Sample.server Sample.x
           (Sample.response 200 "OK" "not json") "not json"); reflexivity.
Defined.

(** C8 at work: [users], [/users] and [/users/]. *)
Lemma callApi_endpoint_separator_witness :
  callApi (withEndpoint (callArgs "x" "") "users") Sample.server =
  callApi (withEndpoint (callArgs "x" "") "/users") Sample.server /\
  (exists req,
      trace (snd (callApi (withEndpoint (callArgs "x" "") "users") Sample.server))
      = ([] ++ [req])%list /\
      Request.url req = "https://h.test/users") /\
  (exists req,
      trace (snd (callApi (withEndpoint (callArgs "x" "") "/users/") Sample.server))
      = ([] ++ [req])%list /\
      Request.url req = "https://h.test/users/").
Proof.
  apply (@callApi_endpoint_separator Sample.host
           (callArgs "x" "") Sample.server Sample.x "users" "/users/");
    reflexivity.
Defined.

(** C10 at work: [discover_api] of [k]. *)
Lemma registry_frame_witness :
  apis (snd (callTool "discover_api" (callArgs "k" "") Sample.server))
  = apis Sample.server /\
  apis (snd (listApis Sample.server)) = apis Sample.server /\
  apis (snd (callApi (callArgs "k" "") Sample.server)) = apis Sample.server /\
  apis (snd (discoverApi (callArgs "k" "") Sample.server)) = apis Sample.server.
Proof.
  apply (@registry_frame Sample.host "discover_api" (callArgs "k" "") Sample.server).
  simpl. auto.
Defined.

End Witnesses.

(* ================================================================= *)
(** ** Further properties of the registry *)

Section RegistryMore.
Variable V : Type.
Implicit Types (m : JsMap.t V) (o : Obj.t V) (k : string) (v : V).

Lemma JsMap_set_in k v m k' w :
  In (k', w) (JsMap.set k v m) -> (k', w) = (k, v) \/ In (k', w) m.
Proof.
  induction m as [|[k1 v1] r IH]; simpl.
  - intros [H|[]]. now left.
  - destruct (String.eqb k1 k) eqn:E; simpl.
    + apply String.eqb_eq in E. subst k1. intros [H|H]; auto.
    + intros [H|H]; auto. destruct (IH H); auto.
Qed.

Lemma JsMap_set_split k v m :
  exists before after_, JsMap.set k v m = (before ++ (k, v) :: after_)%list.
Proof.
  induction m as [|[k1 v1] r (b & a & IH)]; simpl.
  - now exists [], [].
  - destruct (String.eqb k1 k) eqn:E.
    + apply String.eqb_eq in E. subst k1. now exists [], r.
    + exists ((k1, v1) :: b), a. simpl. now rewrite IH.
Qed.

Lemma JsMap_keys_set k v m :
  JsMap.keys (JsMap.set k v m) =
  if JsMap.has k m then JsMap.keys m else (JsMap.keys m ++ [k])%list.
Proof.
  unfold JsMap.has. induction m as [|[k1 v1] r IH]; simpl; [reflexivity|].
  destruct (String.eqb k1 k) eqn:E; simpl; [reflexivity|].
  rewrite IH. now destruct (JsMap.get k r).
Qed.

Lemma Obj_has_set k k' v o :
  Obj.has k o = true -> Obj.has k (Obj.set k' v o) = true.
Proof.
  unfold Obj.has. rewrite Obj_get_set.
  now destruct (String.eqb k' k).
Qed.

Lemma Obj_has_spread k (src : Obj.t V) :
  forall target, Obj.has k target = true -> Obj.has k (Obj.spread target src) = true.
Proof.
  unfold Obj.spread.
  induction src as [|[k1 v1] r IH]; simpl; intros target H; [exact H|].
  apply IH. now apply Obj_has_set.
Qed.

End RegistryMore.

Lemma entryOf_ok (args : Args.t) : entryOk (entryOf args).
Proof.
  split.
  - apply replaceTrailingSlashes_spec.
  - apply Obj_has_spread. reflexivity.
Qed.

Lemma callTool_entries {host : Host} (name : string) (args : Args.t) (st : Server) :
  (forall k cfg, In (k, cfg) (apis st) -> entryOk cfg) ->
  forall k cfg, In (k, cfg) (apis (snd (callTool name args st))) -> entryOk cfg.
Proof.
  intros Hinv k cfg. rewrite callTool_state.
  destruct (String.eqb name "add_api") eqn:E.
  - unfold dispatch. rewrite E, addApi_run. simpl. intros Hin.
    apply JsMap_set_in in Hin as [Heq|Hin].
    + inversion Heq. apply entryOf_ok.
    + now apply (Hinv k).
  - rewrite dispatch_apis by exact E. apply Hinv.
Qed.

Lemma runCalls_entries {host : Host} (calls : list (string * Args.t)) :
  forall st,
    (forall k cfg, In (k, cfg) (apis st) -> entryOk cfg) ->
    forall k cfg, In (k, cfg) (apis (runCalls calls st)) -> entryOk cfg.
Proof.
  induction calls as [|[name args] rest IH]; intros st Hinv; simpl.
  - exact Hinv.
  - apply IH. now apply callTool_entries.
Qed.

(** X1: whatever tool calls the server has taken, every entry of the
    registry has a base URL that does not end in a slash and a
    [Content-Type] header. *)
Theorem registry_entries_normalised {host : Host}
    (calls : list (string * Args.t)) (name : string) (cfg : ApiConfig.t) :
  In (name, cfg) (apis (runCalls calls newServer)) ->
  Js.endsWithSlash (ApiConfig.baseUrl cfg) = false /\
  Obj.has "Content-Type" (ApiConfig.headers cfg) = true.
Proof.
  apply (runCalls_entries calls newServer). intros k c [].
Qed.

(** X2: [add_api] touches the entry of its name only: every other name
    reads as before, the names already present keep their order, a new
    name goes last, and no call to [fetch] is made. *)
Theorem addApi_touches_one_entry (args : Args.t) (st : Server) :
  (forall k, k <> Args.name args ->
             JsMap.get k (apis (snd (addApi args st))) = JsMap.get k (apis st)) /\
  JsMap.keys (apis (snd (addApi args st))) =
  (if JsMap.has (Args.name args) (apis st)
   then JsMap.keys (apis st)
   else (JsMap.keys (apis st) ++ [ Args.name args ])%list) /\
  trace (snd (addApi args st)) = trace st.
Proof.
  rewrite addApi_run. simpl. split; [|split].
  - intros k Hne. apply JsMap_get_set_other. congruence.
  - apply JsMap_keys_set.
  - reflexivity.
Qed.


(** X4: after [add_api], [list_apis] lists the entries in registry
    order, one line each, and among them the line of the added name
    with the base URL as stored. *)
Theorem addApi_then_listApis (args : Args.t) (st : Server) :
  exists before after_,
    apis (snd (addApi args st))
    = (before ++ (Args.name args, entryOf args) :: after_)%list /\
    listApis (snd (addApi args st)) =
    (Returned
       (textResult
          ("📋 Configured APIs:" ++ Js.nl ++ Js.nl
           ++ Js.join Js.nl
                (map apiLine before
                 ++ [ ("• " ++ Args.name args ++ ": "
                       ++ Js.replaceTrailingSlashes (Args.baseUrl args))%string ]
                 ++ map apiLine after_)%list)),
     snd (addApi args st)).
Proof.
  rewrite addApi_run. simpl snd.
  destruct (JsMap_set_split (Args.name args) (entryOf args) (apis st))
    as (b & a & Hsplit).
  exists b, a. simpl apis. split; [exact Hsplit|].
  unfold listApis, bind, getApis, ret. cbv beta match. simpl apis.
  rewrite Hsplit. unfold JsMap.size, JsMap.entries. cbn [apis].
  destruct (Nat.eqb_spec
              (List.length (b ++ (Args.name args, entryOf args) :: a)%list) 0)
    as [H0|_].
  - rewrite length_app in H0. simpl in H0. lia.
  - rewrite map_app. reflexivity.
Qed.

Section RegistryWitnesses.
Local Existing Instance Sample.host.

Lemma registry_entries_normalised_witness :
  Js.endsWithSlash (ApiConfig.baseUrl Sample.x) = false /\
  Obj.has "Content-Type" (ApiConfig.headers Sample.x) = true.
Proof.
  apply (@registry_entries_normalised Sample.host
           [ ("add_api", addArgs "x" "https://h.test///" None);
             ("add_api", addArgs "k" "https://k.test"
                           (Some [ ("Authorization", "Bearer t") ]));
             ("add_api", addArgs "n" "https://n.test/" None) ]
           "x" Sample.x).
  simpl. auto.
Defined.

End RegistryWitnesses.

(* ================================================================= *)
(** ** Further properties of call_api *)

Lemma allSlashes_append_false (r x : string) :
  r <> "" -> Js.endsWithSlash r = false -> Js.allSlashes (r ++ x) = false.
Proof.
  induction r as [|c r IH]; intros Hne Hend; [congruence|].
  simpl. destruct r as [|d r'].
  - simpl in Hend. now rewrite Hend.
  - rewrite IH; [apply andb_false_r | discriminate | exact Hend].
Qed.

Lemma replaceTrailingSlashes_slashes (n : nat) :
  Js.replaceTrailingSlashes (Js.slashes n) = "".
Proof.
  destruct n as [|n]; [reflexivity|].
  change (Js.slashes (S n)) with (String Js.slash (Js.slashes n)).
  cbn [Js.replaceTrailingSlashes].
  now rewrite Ascii.eqb_refl, allSlashes_of_slashes.
Qed.

(** Stripping undoes the appending of slashes. *)
Lemma replaceTrailingSlashes_append (b : string) (n : nat) :
  Js.endsWithSlash b = false ->
  Js.replaceTrailingSlashes (b ++ Js.slashes n) = b.
Proof.
  induction b as [|c r IH]; intros Hend.
  - apply replaceTrailingSlashes_slashes.
  - change (String c r ++ Js.slashes n) with (String c (r ++ Js.slashes n)).
    cbn [Js.replaceTrailingSlashes]. destruct r as [|d r'].
    + cbn [Js.endsWithSlash] in Hend. rewrite Hend. cbn [andb append].
      now rewrite replaceTrailingSlashes_slashes.
    + rewrite allSlashes_append_false, andb_false_r by (discriminate || exact Hend).
      now rewrite IH.
Qed.

Lemma includes_In (l : list string) (x : string) :
  Js.includes l x = true <-> In x l.
Proof.
  unfold Js.includes. rewrite existsb_exists. split.
  - intros (y & Hin & Heq). apply String.eqb_eq in Heq. now subst.
  - intros Hin. exists x. split; [exact Hin | apply String.eqb_refl].
Qed.

Lemma JsMap_get_in (V : Type) (k : string) (m : JsMap.t V) (v : V) :
  JsMap.get k m = Some v -> In (k, v) m.
Proof.
  induction m as [|[k1 v1] r IH]; simpl; [discriminate|].
  destruct (String.eqb k1 k) eqn:E.
  - apply String.eqb_eq in E. subst k1. intros H. inversion H. now left.
  - intros H. right. now apply IH.
Qed.

Lemma JsMap_get_none (V : Type) (k : string) (m : JsMap.t V) :
  ~ In k (JsMap.keys m) -> JsMap.get k m = None.
Proof.
  intros H. apply JsMap_has_false in H. unfold JsMap.has in H.
  now destruct (JsMap.get k m).
Qed.

(** X5: [call_api] of a registered API makes exactly one call to
    [fetch], whatever comes of it: with the method given, [GET] when
    none is, with the headers of the entry, and with a body only when
    the [body] argument is truthy and the method is POST, PUT or PATCH;
    the body is then the argument serialized. *)
Theorem callApi_makes_one_request {host : Host}
    (args : Args.t) (st : Server) (cfg : ApiConfig.t) :
  JsMap.get (Args.api args) (apis st) = Some cfg ->
  exists req,
    snd (callApi args st) = after st [ req ] /\
    Request.method req
    = Some (match Args.method args with Some m => m | None => "GET" end) /\
    Request.headers req = ApiConfig.headers cfg /\
    (Request.body req = None <->
     truthy (Args.body args) = false \/
     ~ In (match Args.method args with Some m => m | None => "GET" end)
          [ "POST"; "PUT"; "PATCH" ]) /\
    (forall b, Request.body req = Some b ->
               exists v, Args.body args = Some v /\ b = JSON_stringify v).
Proof.
  intros Hget. exists (callRequest cfg args).
  rewrite (callApi_run args st Hget). split; [reflexivity|].
  split; [reflexivity|]. split; [reflexivity|].
  unfold callRequest, fetchOptions. cbn [Request.body].
  set (m := match Args.method args with Some m => m | None => "GET" end).
  destruct (Js.includes [ "POST"; "PUT"; "PATCH" ] m) eqn:I;
    destruct (truthy (Args.body args)) eqn:T; cbn [andb].
  - apply includes_In in I. destruct (Args.body args) as [v|]; [|discriminate T].
    cbn [option_map]. split.
    + split; [intros H; discriminate H
             | intros [H|H]; [discriminate H | contradiction]].
    + intros b Hb. inversion Hb. now exists v.
  - split; [|intros b Hb; discriminate Hb]. split; [auto | reflexivity].
  - split; [|intros b Hb; discriminate Hb]. split; [|reflexivity].
    intros _. right. intros Hin. apply includes_In in Hin. congruence.
  - split; [|intros b Hb; discriminate Hb]. split; [auto | reflexivity].
Qed.

(** X6: when the call of [call_api] is rejected, or resolves but its
    body cannot be read, the handler throws that error after the one
    call, and the request handler answers ["Error: "] and the message,
    flagged as an error. *)
Theorem callApi_transport_failure {host : Host}
    (args : Args.t) (st : Server) (cfg : ApiConfig.t) (e : JsError) :
  JsMap.get (Args.api args) (apis st) = Some cfg ->
  network (trace st) (callRequest cfg args) = Rejected e \/
  (exists r, network (trace st) (callRequest cfg args) = Resolved r /\
             Response.text r = Thrown e) ->
  callApi args st = (Thrown e, after st [ callRequest cfg args ]) /\
  callTool "call_api" args st =
  (Returned
     {| content := [ {| type := "text"; text := "Error: " ++ message e |} ];
        isError := Some true |},
   after st [ callRequest cfg args ]).
Proof.
  intros Hget Hfail.
  assert (Hcall : callApi args st = (Thrown e, after st [ callRequest cfg args ])).
  { rewrite (callApi_run args st Hget).
    destruct Hfail as [->|(r & -> & ->)]; reflexivity. }
  split; [exact Hcall|].
  unfold callTool, tryCatch.
  change (dispatch "call_api" args) with (callApi args).
  now rewrite Hcall.
Qed.

(** X7: [add_api] followed by [call_api] of the same name: for a base
    URL [b] that does not end in a slash, given with any number of
    slashes after it, the one call goes to [b], a slash unless the
    endpoint brings its own, the endpoint and the query; it carries the
    default headers overridden by those given to [add_api]. *)
Theorem addApi_then_callApi {host : Host}
    (st : Server) (name b : string) (n : nat)
    (headers : option (Obj.t string)) (cargs : Args.t) :
  Js.endsWithSlash b = false ->
  Args.api cargs = name ->
  exists req,
    trace (snd (callApi cargs (snd (addApi (addArgs name (b ++ Js.slashes n) headers) st))))
    = (trace st ++ [ req ])%list /\
    Request.url req
    = b ++ (if Js.startsWithSlash (Args.endpoint cargs)
            then Args.endpoint cargs
            else "/" ++ Args.endpoint cargs)
        ++ query (Args.params cargs) /\
    Request.headers req
    = Obj.spread defaultHeaders (match headers with Some h => h | None => [] end) /\
    Obj.has "Content-Type" (Request.headers req) = true.
Proof.
  intros Hend Hname.
  set (aargs := addArgs name (b ++ Js.slashes n) headers).
  assert (Hget : JsMap.get (Args.api cargs) (apis (snd (addApi aargs st)))
                 = Some (entryOf aargs)).
  { rewrite addApi_run, Hname. simpl. apply JsMap_get_set_same. }
  exists (callRequest (entryOf aargs) cargs).
  rewrite (callApi_run cargs _ Hget), addApi_run. simpl snd.
  split; [reflexivity|]. split; [|split].
  - unfold callRequest, fetchOptions. cbn [Request.url].
    rewrite buildUrl_parts. unfold entryOf, aargs. simpl.
    now rewrite replaceTrailingSlashes_append.
  - reflexivity.
  - apply Obj_has_spread. reflexivity.
Qed.

Section CallWitnesses.
Local Existing Instance Sample.host.

Lemma callApi_makes_one_request_witness :
  exists req,
    snd (callApi (callArgs "x" "users") Sample.server) = after Sample.server [ req ] /\
    Request.method req = Some "GET" /\
    Request.headers req = ApiConfig.headers Sample.x /\
    (Request.body req = None <->
     truthy (Args.body (callArgs "x" "users")) = false \/
     ~ In "GET" [ "POST"; "PUT"; "PATCH" ]) /\
    (forall b, Request.body req = Some b ->
               exists v, Args.body (callArgs "x" "users") = Some v /\
                         b = JSON_stringify v).
Proof.
  apply (@callApi_makes_one_request Sample.host
           (callArgs "x" "users") Sample.server Sample.x).
  reflexivity.
Defined.

Lemma callApi_transport_failure_witness :
  callApi (callArgs "k" "/users") Sample.server =
  (Thrown (HostError "socket hang up"),
   after Sample.server [ callRequest Sample.k (callArgs "k" "/users") ]) /\
  callTool "call_api" (callArgs "k" "/users") Sample.server =
  (Returned
     {| content := [ {| type := "text"; text := "Error: socket hang up" |} ];
        isError := Some true |},
   after Sample.server [ callRequest Sample.k (callArgs "k" "/users") ]).
Proof.
  apply (@callApi_transport_failure Sample.host
           (callArgs "k" "/users") Sample.server Sample.k
           (HostError "socket hang up")).
  - reflexivity.
  - left. reflexivity.
Defined.

Lemma addApi_then_callApi_witness :
  exists req,
    trace (snd (callApi (callArgs "x" "users")
                  (snd (addApi (addArgs "x" ("https://h.test" ++ Js.slashes 3) None)
                          newServer))))
    = ([] ++ [ req ])%list /\
    Request.url req = "https://h.test/users" /\
    Request.headers req = [ ("Content-Type", "application/json") ] /\
    Obj.has "Content-Type" (Request.headers req) = true.
Proof.
  apply (@addApi_then_callApi Sample.host newServer "x" "https://h.test" 3
           None (callArgs "x" "users")); reflexivity.
Defined.

End CallWitnesses.

(* ================================================================= *)
(** ** Further properties of discover_api *)

Section DiscoverMore.
Context {host : Host}.

#[local] Arguments docLoop : simpl never.
#[local] Arguments endpointLoop : simpl never.

Lemma forEachEndpoint_grows (paths : option JValue) (ks : list string) :
  forall d, exists x, fst (forEachEndpoint paths ks d) = d ++ x.
Proof.
  induction ks as [|k ks IH]; intros d; cbn [forEachEndpoint].
  - exists "". simpl. now rewrite append_empty_r.
  - destruct (getProp paths k) as [item|e];
      [|exists ""; simpl; now rewrite append_empty_r].
    destruct (objectKeys item) as [ms|e];
      [|exists ""; simpl; now rewrite append_empty_r].
    destruct (IH (d ++ endpointLine k (toUpperCase (Js.join ", " ms)))) as [x Hx].
    rewrite Hx. eexists. apply append_assoc.
Qed.

(** The [try] block only ever appends to [discovered]. *)
Lemma inspectDoc_grows (p : string) (r : Response.t) (d : string) :
  exists x, fst (inspectDoc p r d) = d ++ x.
Proof.
  assert (Hsame : exists x, d = d ++ x) by (exists ""; now rewrite append_empty_r).
  unfold inspectDoc.
  destruct (Response.ok r); [|exact Hsame].
  destruct (json r) as [doc|e]; [|exact Hsame].
  destruct (docFound doc) as [[|]|e]; try exact Hsame.
  destruct (getProp (Some doc) "paths") as [paths|e];
    [|now exists (foundLine p)].
  destruct (truthy paths).
  - unfold listEndpoints.
    destruct (objectKeys paths) as [ks|e].
    + destruct (forEachEndpoint_grows paths ks ((d ++ foundLine p) ++ endpointsHeader))
        as [x Hx].
      destruct (forEachEndpoint paths ks ((d ++ foundLine p) ++ endpointsHeader))
        as [d2 [u|e]]; simpl in Hx; subst d2; simpl;
        (eexists; rewrite !append_assoc; reflexivity).
    + simpl. eexists. apply append_assoc.
  - now exists (foundLine p).
Qed.

(** The first loop calls the candidates in order, up to the one it
    returns at, and only appends to [discovered]. *)
Lemma docLoop_trace (cfg : ApiConfig.t) (paths : list string) :
  forall d st flow st1,
    docLoop cfg paths d st = (Returned flow, st1) ->
    exists j x,
      st1 = after st (map (docRequest cfg) (firstn j paths)) /\
      match flow with
      | Next d' => j = List.length paths /\ d' = d ++ x
      | Return res => 1 <= j <= List.length paths /\ res = textResult (d ++ x)
      end.
Proof.
  induction paths as [|p rest IH]; intros d st flow st1.
  - rewrite docLoop_nil. intros H. inversion H; subst.
    exists 0, "". simpl. now rewrite after_nil, append_empty_r.
  - rewrite docLoop_cons.
    destruct (network (trace st) (docRequest cfg p)) as [e|r].
    + intros H. destruct (IH _ _ _ _ H) as (j & x & -> & Hflow).
      exists (S j), x. simpl firstn. simpl map.
      rewrite after_after. split; [reflexivity|].
      destruct flow; simpl; intuition lia.
    + destruct (inspectDoc_grows p r d) as [x1 Hx1].
      destruct (inspectDoc p r d) as [d1 o] eqn:I. simpl in Hx1. subst d1.
      assert (Hgo : docLoop cfg rest (d ++ x1) (after st [docRequest cfg p])
                    = (Returned flow, st1) ->
                    exists j x,
                      st1 = after st (map (docRequest cfg) (firstn j (p :: rest))) /\
                      match flow with
                      | Next d' => j = List.length (p :: rest) /\ d' = d ++ x
                      | Return res =>
                          1 <= j <= List.length (p :: rest) /\ res = textResult (d ++ x)
                      end).
      { intros H. destruct (IH _ _ _ _ H) as (j & x & -> & Hflow).
        exists (S j), (x1 ++ x). simpl firstn. simpl map.
        rewrite after_after. split; [reflexivity|].
        rewrite <- append_assoc.
        destruct flow; simpl; intuition lia. }
      destruct o as [[res|]|e]; try exact Hgo.
      intros H. inversion H; subst.
      exists 1, x1. simpl. split; [reflexivity|]. split; [lia|].
      now apply inspectDoc_oneText in I.
Qed.

Lemma firstn_probes_docs (cfg : ApiConfig.t) (j : nat) :
  j <= 7 ->
  firstn j (probes cfg) = map (docRequest cfg) (firstn j commonPaths).
Proof.
  intros Hj. unfold probes. rewrite firstn_app, length_map.
  replace (j - List.length commonPaths) with 0 by (simpl; lia).
  simpl firstn at 2. now rewrite app_nil_r, firstn_map.
Qed.

(** The calls of [discoverApi] are an initial part of its thirteen probes. *)
Lemma discoverApi_calls (args : Args.t) (st : Server) (cfg : ApiConfig.t) :
  JsMap.get (Args.api args) (apis st) = Some cfg ->
  exists j, snd (discoverApi args st) = after st (firstn j (probes cfg)).
Proof.
  intros Hget. rewrite (discoverApi_run _ _ Hget).
  destruct (docLoop_no_throw cfg commonPaths (discoverHeader (Args.api args)) st)
    as (flow & st1 & Hloop).
  rewrite Hloop.
  destruct (docLoop_trace _ _ _ _ Hloop) as (j & x & -> & Hflow).
  destruct flow as [d|res].
  - destruct Hflow as [-> _]. rewrite endpointLoop_run, after_after.
    exists 13. now rewrite firstn_all.
  - destruct Hflow as [Hj _]. simpl List.length in Hj.
    exists j. now rewrite firstn_probes_docs by lia.
Qed.


(** X9: [discover_api] of a name that is not registered throws the
    not-found error (which, unlike that of [call_api], names no other
    tool) before any call; the request handler answers with it as an
    error result and the state is untouched. *)
Theorem discoverApi_unknown_api (args : Args.t) (st : Server) :
  ~ In (Args.api args) (JsMap.keys (apis st)) ->
  discoverApi args st =
  (Thrown (Error ("API " ++ Js.dq ++ Args.api args ++ Js.dq ++ " not found.")), st) /\
  callTool "discover_api" args st =
  (Returned
     {| content :=
          [ {| type := "text";
               text := "Error: API " ++ Js.dq ++ Args.api args ++ Js.dq
                       ++ " not found." |} ];
        isError := Some true |}, st).
Proof.
  intros Hnot. apply JsMap_get_none in Hnot.
  assert (Hd : discoverApi args st = (Thrown (notFoundDiscover (Args.api args)), st))
    by now apply discoverApi_unregistered.
  split; [exact Hd|].
  unfold callTool, tryCatch.
  change (dispatch "discover_api" args) with (discoverApi args).
  now rewrite Hd.
Qed.

Lemma docFound_object (o : Obj.t JValue) :
  docFound (JObject o) =
  Returned (truthy (Obj.get "paths" o) || truthy (Obj.get "swagger" o)
            || truthy (Obj.get "openapi" o))%bool.
Proof.
  unfold docFound. cbn [getProp].
  destruct (truthy (Obj.get "paths" o)); [reflexivity|].
  destruct (truthy (Obj.get "swagger" o)); reflexivity.
Qed.

Lemma docFound_not_object (doc : JValue) :
  (forall o, doc <> JObject o) -> docFound doc <> Returned true.
Proof.
  intros Hno. destruct doc as [| b | x | s | l | o]; try (intros H; discriminate H).
  now destruct (Hno o).
Qed.

(** X10: a probe of the first loop lets the loop go on, with
    [discovered] unchanged, when the call is rejected, when the status
    is not successful, when the body cannot be read or parsed, when the
    body is not a JSON object, and when none of [paths], [swagger],
    [openapi] is truthy in it. *)
Theorem docLoop_miss_continues
    (cfg : ApiConfig.t) (p : string) (rest : list string) (d : string) (st : Server) :
  match network (trace st) (docRequest cfg p) with
  | Rejected _ => True
  | Resolved r =>
      Response.ok r = false \/
      (exists e, json r = Thrown e) \/
      (exists doc, json r = Returned doc /\ forall o, doc <> JObject o) \/
      (exists o, json r = Returned (JObject o) /\
                 truthy (Obj.get "paths" o) = false /\
                 truthy (Obj.get "swagger" o) = false /\
                 truthy (Obj.get "openapi" o) = false)
  end ->
  docLoop cfg (p :: rest) d st = docLoop cfg rest d (after st [ docRequest cfg p ]).
Proof.
  intros H. apply docLoop_cons_miss. unfold yieldsDoc.
  destruct (network (trace st) (docRequest cfg p)) as [e|r]; [reflexivity|].
  unfold json in H.
  destruct (Response.ok r); [|reflexivity]. cbn [andb].
  destruct H as [Hok|H]; [discriminate Hok|].
  destruct (Response.text r) as [t|e]; [|reflexivity].
  destruct (JSON_parse t) as [doc|e]; [|reflexivity].
  rewrite <- docFound_namesDoc.
  destruct H as [(e & He)|[(doc' & Hd & Hno)|(o & Ho & Hp & Hs & Hop)]].
  - discriminate He.
  - inversion Hd; subst doc'. pose proof (docFound_not_object Hno) as Hnf.
    destruct (docFound doc) as [[|]|e]; congruence.
  - inversion Ho; subst doc. now rewrite docFound_object, Hp, Hs, Hop.
Qed.

Lemma forEachEndpoint_stops (paths : option JValue) (ks1 : list string)
    (k : string) (ks2 : list string) (e : JsError) :
  forall d,
    forallb (fun k => match methodsAt paths k with
                      | Returned _ => true
                      | Thrown _ => false
                      end) ks1 = true ->
    methodsAt paths k = Thrown e ->
    forEachEndpoint paths (ks1 ++ k :: ks2) d
    = (d ++ documentedLines paths ks1, Thrown e).
Proof.
  unfold documentedLines.
  induction ks1 as [|k1 ks1 IH]; intros d Hall Hk.
  - simpl app. cbn [forEachEndpoint map]. simpl String.concat.
    rewrite append_empty_r. unfold methodsAt in Hk.
    destruct (getProp paths k) as [item|e']; [|now inversion Hk].
    destruct (objectKeys item) as [ms|e']; [discriminate Hk | now inversion Hk].
  - cbn [forallb] in Hall. apply andb_prop in Hall as [Hk1 Hks].
    simpl app. cbn [map forEachEndpoint]. rewrite concat_empty_cons.
    unfold methodsOrNone at 1. unfold methodsAt in Hk1 |- *.
    destruct (getProp paths k1) as [item|e']; [|discriminate].
    destruct (objectKeys item) as [ms|e']; [|discriminate].
    rewrite (IH _ Hks Hk). unfold endpointLine. now rewrite append_assoc.
Qed.

(** X11: when a probe of the first loop yields a document whose [paths]
    is truthy but has a key [k] whose value has no keys to take
    ([null]), the loop does not return: it goes on to the next
    candidate, and [discovered] keeps the found line, the endpoints
    header and the lines of the keys before [k]. *)
Theorem docLoop_null_entry_continues
    (cfg : ApiConfig.t) (p : string) (rest : list string) (d : string) (st : Server)
    (r : Response.t) (body : string) (doc : JValue) (paths : option JValue)
    (ks1 : list string) (k : string) (ks2 : list string) (e : JsError) :
  network (trace st) (probeOf None cfg p) = Resolved r ->
  Response.ok r = true ->
  Response.text r = Returned body ->
  JSON_parse body = Returned doc ->
  getProp (Some doc) "paths" = Returned paths ->
  truthy paths = true ->
  keysOf paths = (ks1 ++ k :: ks2)%list ->
  forallb (fun k1 => match methodsAt paths k1 with
                     | Returned _ => true
                     | Thrown _ => false
                     end) ks1 = true ->
  methodsAt paths k = Thrown e ->
  docLoop cfg (p :: rest) d st =
  docLoop cfg rest
    (d ++ ("✅ Documentation found at: " ++ p ++ Js.nl ++ Js.nl)
       ++ "📋 Available endpoints:" ++ Js.nl
       ++ documentedLines paths ks1)
    {| apis := apis st; trace := (trace st ++ [ probeOf None cfg p ])%list |}.
Proof.
  intros Hnet Hok Htext Hparse Hpaths Htruthy Hkeys Hks1 Hk.
  change (probeOf None cfg p) with (docRequest cfg p) in *.
  assert (Hjson : json r = Returned doc) by (now rewrite json_parts, Htext).
  rewrite docLoop_cons, Hnet. unfold inspectDoc.
  rewrite Hok, Hjson.
  assert (Hfound : docFound doc = Returned true).
  { unfold docFound. now rewrite Hpaths, Htruthy. }
  rewrite Hfound, Hpaths, Htruthy. unfold listEndpoints.
  rewrite (truthy_objectKeys _ Htruthy), Hkeys.
  rewrite (@forEachEndpoint_stops paths ks1 k ks2 e _ Hks1 Hk).
  unfold foundLine, endpointsHeader, after.
  rewrite !append_assoc. reflexivity.
Qed.

End DiscoverMore.

Section DiscoverWitnesses.
Local Existing Instance Sample.host.


Lemma discoverApi_unknown_api_witness :
  discoverApi (callArgs "missing" "") Sample.server =
  (Thrown (Error ("API " ++ Js.dq ++ "missing" ++ Js.dq ++ " not found.")),
   Sample.server) /\
  callTool "discover_api" (callArgs "missing" "") Sample.server =
  (Returned
     {| content :=
          [ {| type := "text";
               text := "Error: API " ++ Js.dq ++ "missing" ++ Js.dq ++ " not found." |} ];
        isError := Some true |}, Sample.server).
Proof.
  apply (@discoverApi_unknown_api Sample.host (callArgs "missing" "") Sample.server).
  simpl. intuition discriminate.
Defined.

(** The first probe of [k] serves an object whose [swagger] is the
    empty string. *)
Lemma docLoop_miss_continues_witness :
  docLoop Sample.k
    ("/swagger.json" :: [ "/openapi.json"; "/api-docs" ])
    (discoverHeader "k") Sample.server
  = docLoop Sample.k [ "/openapi.json"; "/api-docs" ]
      (discoverHeader "k")
      (after Sample.server [ docRequest Sample.k "/swagger.json" ]).
Proof.
  apply (@docLoop_miss_continues Sample.host Sample.k "/swagger.json"
           [ "/openapi.json"; "/api-docs" ] (discoverHeader "k") Sample.server).
  simpl. right. right. right.
  exists [ ("swagger", JString "") ]. repeat split; reflexivity.
Defined.

(** The first probe of [n] serves [paths] with the keys [/a], [/b],
    [/c], where [/b] holds [null]. *)
Lemma docLoop_null_entry_continues_witness :
  docLoop Sample.n
    ("/swagger.json" :: [ "/openapi.json" ])
    "" Sample.server
  = docLoop Sample.n [ "/openapi.json" ]
      ("✅ Documentation found at: /swagger.json" ++ Js.nl ++ Js.nl
       ++ "📋 Available endpoints:" ++ Js.nl
       ++ "• /a [GET]" ++ Js.nl)
      {| apis := [ ("x", Sample.x); ("k", Sample.k); ("n", Sample.n) ];
         trace :=
           [ {| Request.url := "https://n.test/swagger.json"; Request.method := None;
                Request.headers := [ ("Content-Type", "application/json") ];
                Request.body := None |} ] |}.
Proof.
  apply (@docLoop_null_entry_continues Sample.host Sample.n "/swagger.json"
           [ "/openapi.json" ] "" Sample.server
           (Sample.response 200 "OK" Sample.nullEntryText)
           Sample.nullEntryText
           Sample.nullEntryDoc
           (Some (JObject [ ("/a", JObject [ ("get", JObject []) ]);
                            ("/b", JNull);
                            ("/c", JObject [ ("put", JObject []) ]) ]))
           [ "/a" ] "/b" [ "/c" ]
           (TypeError "Cannot convert undefined or null to object"));
    reflexivity.
Defined.

End DiscoverWitnesses.

(* ================================================================= *)
(** ** Every tool call *)

Lemma In_firstn (A : Type) (j : nat) (l : list A) (x : A) :
  In x (firstn j l) -> In x l.
Proof.
  intros H. rewrite <- (firstn_skipn j l). apply in_or_app. now left.
Qed.

Lemma requestOk_callRequest {host : Host} (cfg : ApiConfig.t) (args : Args.t) :
  entryOk cfg -> requestOk (callRequest cfg args).
Proof.
  intros [_ Hct]. split; [exact Hct|].
  unfold callRequest, fetchOptions. cbn [Request.body Request.method].
  destruct (Js.includes [ "POST"; "PUT"; "PATCH" ]
              (match Args.method args with Some m => m | None => "GET" end)) eqn:I.
  - right. eexists. split; [reflexivity|]. now apply includes_In.
  - left. now rewrite andb_false_r.
Qed.

Lemma requestOk_probe (cfg : ApiConfig.t) (req : Request.t) :
  entryOk cfg -> In req (probes cfg) -> requestOk req.
Proof.
  intros [_ Hct] Hin. unfold probes in Hin.
  apply in_app_or in Hin as [Hin|Hin];
    apply in_map_iff in Hin as (p & <- & _); split; auto.
Qed.

(** The calls a tool call adds to the trace: none but for [call_api]
    (at most its one call) and [discover_api] (some of its probes), all
    made for an entry of the registry. *)
Lemma callTool_requests {host : Host} (name : string) (args : Args.t) (st : Server) :
  exists l,
    trace (snd (callTool name args st)) = (trace st ++ l)%list /\
    List.length l <= (if String.eqb name "call_api" then 1
                      else if String.eqb name "discover_api" then 13 else 0) /\
    forall req, In req l ->
      exists k cfg, In (k, cfg) (apis st) /\
                    (req = callRequest cfg args \/ In req (probes cfg)).
Proof.
  rewrite callTool_state. unfold dispatch.
  destruct (String.eqb name "add_api") eqn:E1.
  { apply String.eqb_eq in E1. subst name. exists []. rewrite addApi_run. simpl.
    rewrite app_nil_r. repeat split; auto. intros req []. }
  destruct (String.eqb name "list_apis") eqn:E2.
  { apply String.eqb_eq in E2. subst name. exists []. rewrite listApis_state. simpl.
    rewrite app_nil_r. repeat split; auto. intros req []. }
  destruct (String.eqb name "call_api") eqn:E3.
  { destruct (JsMap.get (Args.api args) (apis st)) as [cfg|] eqn:Hget.
    - exists [ callRequest cfg args ]. rewrite (callApi_run args st Hget).
      split; [reflexivity|]. split; [simpl; lia|].
      intros req [<-|[]]. exists (Args.api args), cfg.
      split; [now apply JsMap_get_in | now left].
    - exists []. rewrite (callApi_unregistered args st Hget). simpl.
      rewrite app_nil_r. repeat split; [lia|]. intros req []. }
  destruct (String.eqb name "discover_api") eqn:E4.
  { destruct (JsMap.get (Args.api args) (apis st)) as [cfg|] eqn:Hget.
    - destruct (discoverApi_calls args st Hget) as (j & ->).
      exists (firstn j (probes cfg)). split; [reflexivity|]. split.
      + rewrite length_firstn. apply Nat.le_min_r.
      + intros req Hin. exists (Args.api args), cfg.
        split; [now apply JsMap_get_in|]. right. now apply In_firstn in Hin.
    - exists []. rewrite (discoverApi_unregistered args st Hget). simpl.
      rewrite app_nil_r. repeat split; [lia|]. intros req []. }
  exists []. unfold throw. simpl. rewrite app_nil_r.
  repeat split; auto. intros req [].
Qed.

(** X12: a tool call never alters or removes what is in the trace; it
    adds no call at all for [add_api], [list_apis] and unknown names,
    at most one for [call_api] and at most thirteen for
    [discover_api]. *)
Theorem callTool_request_budget {host : Host}
    (name : string) (args : Args.t) (st : Server) :
  exists l,
    trace (snd (callTool name args st)) = (trace st ++ l)%list /\
    List.length l <= (if String.eqb name "call_api" then 1
                      else if String.eqb name "discover_api" then 13 else 0).
Proof.
  destruct (callTool_requests name args st) as (l & Htrace & Hlen & _).
  now exists l.
Qed.

Lemma runCalls_requests {host : Host} (calls : list (string * Args.t)) :
  forall st,
    (forall k cfg, In (k, cfg) (apis st) -> entryOk cfg) ->
    Forall requestOk (trace st) ->
    Forall requestOk (trace (runCalls calls st)).
Proof.
  induction calls as [|[name args] rest IH]; intros st Hent Htr; simpl.
  - exact Htr.
  - apply IH; [now apply callTool_entries|].
    destruct (callTool_requests name args st) as (l & -> & _ & Hl).
    apply Forall_app. split; [exact Htr|].
    apply Forall_forall. intros req Hin.
    destruct (Hl req Hin) as (k & cfg & Hk & [->|Hp]).
    + apply requestOk_callRequest. now apply (Hent k).
    + apply (requestOk_probe (cfg := cfg)); [now apply (Hent k) | exact Hp].
Qed.

(** X13: whatever tool calls the server has taken, every outbound call
    it has made carries a [Content-Type] header, and carries a body
    only under one of the methods POST, PUT, PATCH. *)
Theorem every_request_has_content_type {host : Host}
    (calls : list (string * Args.t)) :
  Forall
    (fun req =>
       Obj.has "Content-Type" (Request.headers req) = true /\
       (Request.body req = None \/
        exists m, Request.method req = Some m /\ In m [ "POST"; "PUT"; "PATCH" ]))
    (trace (runCalls calls newServer)).
Proof.
  apply (runCalls_requests calls newServer).
  - intros k cfg [].
  - constructor.
Qed.

(** X14: the names the catalogue advertises are exactly the names the
    request handler has a case for: a name is outside the catalogue if
    and only if every call under it throws the unknown-tool error
    without touching the state. *)
Theorem tools_are_the_handled_names {host : Host} (name : string) :
  ~ In name (map Tool.name tools) <->
  (forall args st,
      dispatch name args st = (Thrown (Error ("Unknown tool: " ++ name)), st)).
Proof.
  split.
  - intros Hnot args st. unfold dispatch.
    destruct (String.eqb name "add_api") eqn:E1;
      [apply String.eqb_eq in E1; subst; exfalso; apply Hnot; simpl; auto|].
    destruct (String.eqb name "list_apis") eqn:E2;
      [apply String.eqb_eq in E2; subst; exfalso; apply Hnot; simpl; auto|].
    destruct (String.eqb name "call_api") eqn:E3;
      [apply String.eqb_eq in E3; subst; exfalso; apply Hnot; simpl; auto|].
    destruct (String.eqb name "discover_api") eqn:E4;
      [apply String.eqb_eq in E4; subst; exfalso; apply Hnot; simpl; auto|].
    reflexivity.
  - intros Hall Hin. specialize (Hall (callArgs "" "") newServer).
    simpl in Hin. destruct Hin as [<-|[<-|[<-|[<-|[]]]]]; discriminate Hall.
Qed.

Lemma callTool_keys {host : Host} (name : string) (args : Args.t) (st : Server) (k : string) :
  In k (JsMap.keys (apis st)) ->
  In k (JsMap.keys (apis (snd (callTool name args st)))).
Proof.
  intros Hin. rewrite callTool_state.
  destruct (String.eqb name "add_api") eqn:E.
  - unfold dispatch. rewrite E, addApi_run. simpl.
    apply JsMap_keys_set_in. now right.
  - now rewrite dispatch_apis.
Qed.

(** X15: no tool call removes a name from the registry: a name that is
    registered stays registered through any sequence of tool calls, and
    the registry never gets smaller. *)
Theorem registry_names_persist {host : Host}
    (calls : list (string * Args.t)) (st : Server) (name : string) :
  In name (JsMap.keys (apis st)) ->
  In name (JsMap.keys (apis (runCalls calls st))) /\
  JsMap.size (apis st) <= JsMap.size (apis (runCalls calls st)).
Proof.
  revert st. induction calls as [|[tool args] rest IH]; intros st Hin; simpl.
  - split; [exact Hin | lia].
  - destruct (IH (snd (callTool tool args st)) (callTool_keys tool args st name Hin))
      as [Hk Hsize].
    split; [exact Hk|].
    apply Nat.le_trans with (2 := Hsize).
    rewrite callTool_state.
    destruct (String.eqb tool "add_api") eqn:E.
    + unfold dispatch. rewrite E, addApi_run. simpl.
      unfold JsMap.size. rewrite <- !(length_map fst).
      change (map fst (JsMap.set (Args.name args) (entryOf args) (apis st)))
        with (JsMap.keys (JsMap.set (Args.name args) (entryOf args) (apis st))).
      rewrite JsMap_keys_set.
      destruct (JsMap.has (Args.name args) (apis st)); [apply Nat.le_refl|].
      unfold JsMap.keys. rewrite length_app. simpl. lia.
    + rewrite dispatch_apis by exact E. apply Nat.le_refl.
Qed.

Section ToolWitnesses.
Local Existing Instance Sample.host.

(** [x] stays registered through an unknown tool, a discovery and the
    adding of another name. *)
Lemma registry_names_persist_witness :
  In "x" (JsMap.keys
            (apis (runCalls
                     [ ("remove_api", callArgs "x" "");
                       ("discover_api", callArgs "x" "");
                       ("add_api", addArgs "y" "https://y.test" None) ]
                     Sample.server))) /\
  JsMap.size (apis Sample.server)
  <= JsMap.size
       (apis (runCalls
                [ ("remove_api", callArgs "x" "");
                  ("discover_api", callArgs "x" "");
                  ("add_api", addArgs "y" "https://y.test" None) ]
                Sample.server)).
Proof.
  apply (@registry_names_persist Sample.host
           [ ("remove_api", callArgs "x" "");
             ("discover_api", callArgs "x" "");
             ("add_api", addArgs "y" "https://y.test" None) ]
           Sample.server "x").
  simpl. auto.
Defined.

End ToolWitnesses.
